(** * dmtools: the Netpbm codec, depth reduction and the ASCII-art quantizer

    A shallow embedding of [dmtools/netpbm.py], [dmtools/ascii.py] and
    [dmtools/log.py].

    Conventions of the embedding:
    - a Python [str] is the list of its code points ([N]); [bytes] is a list
      of [Byte.byte];
    - a Python exception is a value of [exn]; a function that may raise
      returns a [result];
    - a NumPy array is a shape together with its row-major element buffer;
      elements are mathematical integers (the fixed width of [int64] and
      [uint8] arithmetic is not modelled);
    - the two places where the source goes through [float] ([M / k > 0.5]
      and [int(self.k / k)]) are modelled by exact rational arithmetic, which
      is what IEEE doubles compute for operands below [2^53]. *)

From Stdlib Require Import Strings.Byte Strings.String Strings.Ascii.
From Stdlib Require Import ZArith NArith QArith Bool Lia List.
Import ListNotations.

Local Open Scope Z_scope.

(** ** Python values, exceptions and built-ins *)

Module Py.

Inductive exn : Set :=
| IndexError
| ValueError
| TypeError
| UnicodeDecodeError
| ZeroDivisionError.

Inductive result (A : Type) : Type :=
| Ok (a : A)
| Raise (e : exn).

Arguments Ok {A} a.
Arguments Raise {A} e.

Definition bind {A B} (c : result A) (f : A -> result B) : result B :=
  match c with
  | Ok a => f a
  | Raise e => Raise e
  end.

Definition raises {A} (c : result A) : Prop := exists e, c = Raise e.


(** [[f(x) for x in l]] for an [f] that may raise: the first exception wins. *)
Fixpoint mapM {A B} (f : A -> result B) (l : list A) : result (list B) :=
  match l with
  | [] => Ok []
  | x :: t =>
      bind (f x) (fun y => bind (mapM f t) (fun ys => Ok (y :: ys)))
  end.

(** A [str] as the list of its code points. *)
Definition str : Type := list N.

(** The code points of a literal (all below 256). *)
Definition lit (s : string) : str := map N_of_ascii (list_ascii_of_string s).

Definition nl : N := 10.
Definition cr : N := 13.
Definition space : N := 32.
Definition hash : N := 35.

(** [str.isspace] for one code point: the white space of [str.split()] and
    of the stripping done by [int()]. *)
Definition isspace (c : N) : bool :=
  ((9 <=? c) && (c <=? 13) || (28 <=? c) && (c <=? 32)
   || (c =? 133) || (c =? 160) || (c =? 5760)
   || (8192 <=? c) && (c <=? 8202) || (c =? 8232) || (c =? 8233)
   || (c =? 8239) || (c =? 8287) || (c =? 12288))%N.

(** The decimal digits [int()] accepts. Python also accepts the decimal
    digits of other scripts; here only ['0'..'9'] count as digits. *)
Definition isdigit (c : N) : bool := ((48 <=? c) && (c <=? 57))%N.

Definition digit_value (c : N) : Z := Z.of_N c - 48.

(** [s[i]] for a non-negative constant index. *)
Definition index {A} (l : list A) (i : nat) : result A :=
  match nth_error l i with
  | Some x => Ok x
  | None => Raise IndexError
  end.

(** [s[i]] for an integer [i]: negative indices count from the end. *)
Definition getitem {A} (l : list A) (i : Z) : result A :=
  let n := Z.of_nat (length l) in
  if (0 <=? i) && (i <? n) then index l (Z.to_nat i)
  else if (- n <=? i) && (i <? 0) then index l (Z.to_nat (n + i))
  else Raise IndexError.

(** [s[:-1]] *)
Definition drop_last {A} (l : list A) : list A := removelast l.

(** [sep.join(parts)] *)
Fixpoint join (sep : str) (parts : list str) : str :=
  match parts with
  | [] => []
  | [p] => p
  | p :: t => p ++ sep ++ join sep t
  end.

(** [s.split('#')[0]]: the text before the first ['#']. *)
Fixpoint before_hash (s : str) : str :=
  match s with
  | [] => []
  | c :: t => if (c =? hash)%N then [] else c :: before_hash t
  end.

Definition flush (tok : str) : list str :=
  match tok with
  | [] => []
  | _ => [rev tok]
  end.

(** [s.split()]: the maximal runs of non-space characters. [tok] is the
    current run, reversed. *)
Fixpoint split_from (tok : str) (s : str) : list str :=
  match s with
  | [] => flush tok
  | c :: t =>
      if isspace c then flush tok ++ split_from [] t
      else split_from (c :: tok) t
  end.

Definition split (s : str) : list str := split_from [] s.

Fixpoint lstrip (s : str) : str :=
  match s with
  | [] => []
  | c :: t => if isspace c then lstrip t else s
  end.

Definition strip (s : str) : str := rev (lstrip (rev (lstrip s))).

(** The digits of an integer literal: one or more digits, single underscores
    allowed between digits. [prev] tells whether the previous character was a
    digit. *)
Fixpoint int_digits (acc : Z) (prev : bool) (s : str) : option Z :=
  match s with
  | [] => if prev then Some acc else None
  | c :: t =>
      if isdigit c then int_digits (10 * acc + digit_value c) true t
      else if (c =? 95)%N && prev then int_digits acc false t
      else None
  end.

(** [int(s)] for a [str]: surrounding white space is ignored, then an
    optional sign and the digits. The limit recent versions of Python put
    on the number of digits is not modelled. *)
Definition int (s : str) : result Z :=
  let body := strip s in
  let '(neg, ds) :=
    match body with
    | c :: t =>
        if (c =? 45)%N then (true, t)
        else if (c =? 43)%N then (false, t)
        else (false, body)
    | [] => (false, [])
    end in
  match int_digits 0 false ds with
  | Some n => Ok (if neg then - n else n)
  | None => Raise ValueError
  end.

(** [int(a / b)] for integers: true division, then truncation towards zero. *)
Definition int_truediv (a b : Z) : result Z :=
  if b =? 0 then Raise ZeroDivisionError else Ok (Z.quot a b).

(** The decimal digits of a non-negative integer, most significant first.
    Every step divides by ten, so [fuel] above the binary size is enough. *)
Fixpoint digits_of (fuel : nat) (n : Z) (acc : str) : str :=
  match fuel with
  | O => acc
  | S f =>
      let acc' := Z.to_N (48 + n mod 10) :: acc in
      if n <? 10 then acc' else digits_of f (n / 10) acc'
  end.

(** [str(n)], also ['%d' % n] and NumPy's [astype(str)] on integers. *)
Definition str_of_int (n : Z) : str :=
  if n <? 0 then 45%N :: digits_of (S (Z.to_nat (Z.log2 (- n)))) (- n) []
  else digits_of (S (Z.to_nat (Z.log2 n))) n [].

(** *** Bytes and files *)

Definition continuation (b : byte) : bool :=
  ((128 <=? Byte.to_N b) && (Byte.to_N b <=? 191))%N.

Definition low6 (b : byte) : N := (Byte.to_N b - 128)%N.

(** [bytes.decode()]: strict UTF-8. Overlong forms, surrogates and code
    points above U+10FFFF are rejected. *)
Fixpoint decode (bs : list byte) : result str :=
  match bs with
  | [] => Ok []
  | b0 :: t0 =>
      let n0 := Byte.to_N b0 in
      if (n0 <? 128)%N then bind (decode t0) (fun s => Ok (n0 :: s))
      else if ((194 <=? n0) && (n0 <=? 223))%N then
        match t0 with
        | b1 :: t1 =>
            if continuation b1
            then bind (decode t1)
                   (fun s => Ok (((n0 - 192) * 64 + low6 b1)%N :: s))
            else Raise UnicodeDecodeError
        | _ => Raise UnicodeDecodeError
        end
      else if ((224 <=? n0) && (n0 <=? 239))%N then
        match t0 with
        | b1 :: b2 :: t2 =>
            let cp := ((n0 - 224) * 4096 + low6 b1 * 64 + low6 b2)%N in
            if continuation b1 && continuation b2 && (2048 <=? cp)%N
               && negb ((55296 <=? cp) && (cp <=? 57343))%N
            then bind (decode t2) (fun s => Ok (cp :: s))
            else Raise UnicodeDecodeError
        | _ => Raise UnicodeDecodeError
        end
      else if ((240 <=? n0) && (n0 <=? 244))%N then
        match t0 with
        | b1 :: b2 :: b3 :: t3 =>
            let cp := ((n0 - 240) * 262144 + low6 b1 * 4096
                       + low6 b2 * 64 + low6 b3)%N in
            if continuation b1 && continuation b2 && continuation b3
               && (65536 <=? cp)%N && (cp <=? 1114111)%N
            then bind (decode t3) (fun s => Ok (cp :: s))
            else Raise UnicodeDecodeError
        | _ => Raise UnicodeDecodeError
        end
      else Raise UnicodeDecodeError
  end.

(** What a text-mode [write] stores for a character below 128: that one
    byte. [to_netpbm] writes no other characters. *)
Definition byte_of_char (c : N) : byte :=
  match Byte.of_N c with
  | Some b => b
  | None => x3f
  end.

Definition encode (s : str) : list byte := map byte_of_char s.

(** Universal newlines of a text-mode read: ["\r\n"] and a lone ["\r"]
    become ["\n"]. *)
Fixpoint universal_newlines (s : str) : str :=
  match s with
  | [] => []
  | c :: t =>
      if (c =? cr)%N then
        match t with
        | c' :: t' =>
            if (c' =? nl)%N then nl :: universal_newlines t'
            else nl :: universal_newlines t
        | [] => [nl]
        end
      else c :: universal_newlines t
  end.

(** The lines of a text, each with its ["\n"]; a last line without one is
    kept when it is not empty. *)
Fixpoint splitlines (s : str) : list str :=
  match s with
  | [] => []
  | c :: t =>
      if (c =? nl)%N then [c] :: splitlines t
      else match splitlines t with
           | [] => [[c]]
           | l :: ls => (c :: l) :: ls
           end
  end.

(** Iterating a file opened in text mode: all its lines. *)
Definition text_lines (file : list byte) : result (list str) :=
  bind (decode file) (fun s => Ok (splitlines (universal_newlines s))).

(** [f.readline()] on a file opened in binary mode: the bytes up to and
    including the next ["\n"], and the rest of the file. *)
Fixpoint readline (bs : list byte) : list byte * list byte :=
  match bs with
  | [] => ([], [])
  | b :: t =>
      if Byte.eqb b x0a then ([b], t)
      else let '(l, r) := readline t in (b :: l, r)
  end.

End Py.

Notation "x <- c ;; k" := (Py.bind c (fun x => k))
  (at level 61, c at next level, right associativity).
Notation "' pat <- c ;; k" := (Py.bind c (fun x => match x with pat => k end))
  (at level 61, pat pattern, c at next level, right associativity).

(** ** NumPy arrays *)

Module Np.

Record ndarray : Type := mk { shape : list Z; data : list Z }.

Definition size (a : ndarray) : Z := Z.of_nat (length (data a)).

(** [np.array(vals)] for a flat list of integers. *)
Definition array (vals : list Z) : ndarray :=
  mk [Z.of_nat (length vals)] vals.

(** [np.array(rows)] for a non-empty list of equally long rows; used to
    write rasters down. *)
Definition array2 (rows : list (list Z)) : ndarray :=
  mk [Z.of_nat (length rows); Z.of_nat (length (hd [] rows))] (concat rows).

(** The product of the requested dimensions that are given. *)
Definition known (dims : list Z) : Z :=
  fold_right (fun d p => if d <? 0 then p else d * p) 1 dims.

Definition unknowns (dims : list Z) : nat :=
  length (filter (fun d => d <? 0) dims).

(** [a.reshape(dims)]: the buffer is kept. A negative dimension is inferred
    from the size; at most one may be negative. *)
Definition reshape (a : ndarray) (dims : list Z) : Py.result ndarray :=
  let n := size a in
  let p := known dims in
  match unknowns dims with
  | O => if p =? n then Py.Ok (mk dims (data a)) else Py.Raise Py.ValueError
  | S O =>
      if (p =? 0) || negb (n mod p =? 0) then Py.Raise Py.ValueError
      else Py.Ok (mk (map (fun d => if d <? 0 then n / p else d) dims)
                     (data a))
  | _ => Py.Raise Py.ValueError
  end.

(** An element-wise operation. *)
Definition map_elems (f : Z -> Z) (a : ndarray) : ndarray :=
  mk (shape a) (map f (data a)).

(** [np.array(list(map(lambda x: f(x), a)), dtype=int)] for an element-wise
    [f]: the array is taken apart along its first axis and put together
    again. An array without rows comes back with shape [(0,)]; a
    0-dimensional array cannot be iterated. *)
Definition array_of_map (f : Z -> Z) (a : ndarray) : Py.result ndarray :=
  match shape a with
  | [] => Py.Raise Py.TypeError
  | d :: _ =>
      Py.Ok (mk (if d =? 0 then [0] else shape a) (map f (data a)))
  end.


(** [n] consecutive rows of [m] elements. *)
Fixpoint chunk {A} (n m : nat) (l : list A) : list (list A) :=
  match n with
  | O => []
  | S n' => firstn m l :: chunk n' m (skipn m l)
  end.

(** [a.tolist()] for a 2-dimensional array. *)
Definition rows (a : ndarray) : list (list Z) :=
  match shape a with
  | [n; m] => chunk (Z.to_nat n) (Z.to_nat m) (data a)
  | _ => []
  end.

(** [np.fromfile(f, np.dtype('B'))]: the rest of the file, one unsigned
    8-bit sample per byte. *)
Definition fromfile (rest : list byte) : ndarray :=
  array (map (fun b => Z.of_N (Byte.to_N b)) rest).


(** *** Building and stacking arrays *)

(** The number of elements of an array of the given shape. *)
Definition product (dims : list Z) : Z := fold_right Z.mul 1 dims.

(** [np.ones(shape)]: negative dimensions are not allowed. *)
Definition ones (shape : list Z) : Py.result ndarray :=
  if forallb (fun d => 0 <=? d) shape
  then Py.Ok (mk shape (repeat 1 (Z.to_nat (product shape))))
  else Py.Raise Py.ValueError.

(** [c * a] *)
Definition scale (c : Z) (a : ndarray) : ndarray := map_elems (Z.mul c) a.

Definition atleast_1d (a : ndarray) : ndarray :=
  match shape a with
  | [] => mk [1] (data a)
  | _ => a
  end.

Definition atleast_2d (a : ndarray) : ndarray :=
  match shape a with
  | [] => mk [1; 1] (data a)
  | [n] => mk [1; n] (data a)
  | _ => a
  end.

Definition same_dims (a b : list Z) : bool :=
  if list_eq_dec Z.eq_dec a b then true else false.

Fixpoint zip_app {A} (xs ys : list (list A)) : list (list A) :=
  match xs, ys with
  | x :: xs', y :: ys' => (x ++ y) :: zip_app xs' ys'
  | _, _ => []
  end.

(** [np.concatenate((a, b), axis=0)]: the arrays must agree in every
    dimension but the first. *)
Definition concatenate0 (a b : ndarray) : Py.result ndarray :=
  match shape a, shape b with
  | d :: ra, e :: rb =>
      if same_dims ra rb then Py.Ok (mk (d + e :: ra) (data a ++ data b))
      else Py.Raise Py.ValueError
  | _, _ => Py.Raise Py.ValueError
  end.

(** [np.concatenate((a, b), axis=1)]: the arrays must agree in every
    dimension but the second; the blocks along the first axis are joined
    pairwise. *)
Definition concatenate1 (a b : ndarray) : Py.result ndarray :=
  match shape a, shape b with
  | d :: m :: ra, e :: n :: rb =>
      if (d =? e) && same_dims ra rb then
        Py.Ok (mk (d :: m + n :: ra)
                 (concat
                    (zip_app
                       (chunk (Z.to_nat d) (Z.to_nat (m * product ra)) (data a))
                       (chunk (Z.to_nat e) (Z.to_nat (n * product rb))
                          (data b)))))
      else Py.Raise Py.ValueError
  | _, _ => Py.Raise Py.ValueError
  end.

(** [np.hstack((a, b))] *)
Definition hstack (a b : ndarray) : Py.result ndarray :=
  let a' := atleast_1d a in
  let b' := atleast_1d b in
  match shape a' with
  | [_] => concatenate0 a' b'
  | _ => concatenate1 a' b'
  end.

(** [np.vstack((a, b))] *)
Definition vstack (a b : ndarray) : Py.result ndarray :=
  concatenate0 (atleast_2d a) (atleast_2d b).
End Np.

(** ** dmtools/netpbm.py *)

Module netpbm.

(** The attributes of a [Netpbm] object. [h] and [w] are read off the shape
    of [M] when the object is built and never touched again. *)
Record Netpbm : Type := mkNetpbm { P : Z; h : Z; w : Z; k : Z; M : Np.ndarray }.

(** [Netpbm(P=P, k=k, M=M)]: [self.h, self.w, *_ = M.shape] needs two
    dimensions at least. *)
Definition init (P k : Z) (M : Np.ndarray) : Py.result Netpbm :=
  match Np.shape M with
  | h :: w :: _ => Py.Ok (mkNetpbm P h w k M)
  | _ => Py.Raise Py.ValueError
  end.

Definition with_M (self : Netpbm) (M' : Np.ndarray) : Netpbm :=
  mkNetpbm (P self) (h self) (w self) (k self) M'.


(** One element of [(self.M / self.k) > 0.5]. Division of an integer by
    zero gives [inf], [-inf] or [nan] in NumPy, of which only [inf] is
    above one half. *)
Definition above_half (x m : Z) : bool :=
  if m =? 0 then 0 <? x
  else match (inject_Z x / inject_Z m ?= 1 # 2)%Q with
       | Gt => true
       | _ => false
       end.

(** [set_max_color_value]; the object after the call is returned. In the
    branch for [k == 1] the statement [self.P == 1] is a comparison whose
    value is dropped. *)
Definition set_max_color_value (self : Netpbm) (new_k : Z)
  : Py.result Netpbm :=
  if new_k =? 1 then
    let M' :=
      Np.map_elems (fun x => if above_half x (k self) then 1 else 0)
        (M self) in
    let _ := if P self =? 2 then P self =? 1 else false in
    Py.Ok (with_M self M')
  else
    step <- Py.int_truediv (k self) new_k ;;
    M' <- Np.array_of_map (fun x => x / step) (M self) ;;
    Py.Ok (with_M self M').



(** [w, h, *vals = ints] and [w, h, k, *vals = ints] *)
Definition unpack (P : Z) (ints : list Z) : Py.result (Z * Z * Z * list Z) :=
  if P =? 1 then
    match ints with
    | w :: h :: vals => Py.Ok (w, h, 1, vals)
    | _ => Py.Raise Py.ValueError
    end
  else
    match ints with
    | w :: h :: k :: vals => Py.Ok (w, h, k, vals)
    | _ => Py.Raise Py.ValueError
    end.

(** The shape both parsers ask for. *)
Definition raster_shape (P h w : Z) : list Z :=
  if P =? 3 then [h; w; 3] else [h; w].

(** The tokens of the lines: comments cut off, then split at white space. *)
Definition tokens (f : list Py.str) : list Py.str :=
  concat (map (fun line => Py.split (Py.before_hash line)) f).

Definition _parse_ascii_netpbm (f : list Py.str) : Py.result Netpbm :=
  let vals := tokens f in
  v0 <- Py.index vals 0 ;;
  c <- Py.index v0 1 ;;
  P <- Py.int [c] ;;
  ints <- Py.mapM Py.int (tl vals) ;;
  '(w, h, k, vals) <- unpack P ints ;;
  M <- Np.reshape (Np.array vals) (raster_shape P h w) ;;
  init P k M.

(** [int(f.readline().decode()[:-1])] and the rest of the file. *)
Definition read_int_line (file : list byte) : Py.result (Z * list byte) :=
  let '(line, rest) := Py.readline file in
  s <- Py.decode line ;;
  n <- Py.int (Py.drop_last s) ;;
  Py.Ok (n, rest).

Definition _parse_binary_netpbm (file : list byte) : Py.result Netpbm :=
  let '(line, rest) := Py.readline file in
  s <- Py.decode line ;;
  c <- Py.index s 1 ;;
  P <- Py.int [c] ;;
  P <- Py.int_truediv P 2 ;;
  '(w, rest) <- read_int_line rest ;;
  '(h, rest) <- read_int_line rest ;;
  '(k, rest) <- (if P =? 1 then Py.Ok (1, rest) else read_int_line rest) ;;
  M <- Np.reshape (Np.fromfile rest) (raster_shape P h w) ;;
  init P k M.

(** [read_netpbm]; [file] is the content of the file at [path]. *)
Definition read_netpbm (file : list byte) : Py.result Netpbm :=
  magic_number <- Py.decode (firstn 2 file) ;;
  c <- Py.index magic_number 1 ;;
  n <- Py.int [c] ;;
  if n <=? 3 then
    f <- Py.text_lines file ;;
    _parse_ascii_netpbm f
  else _parse_binary_netpbm file.



(** The keys of [{'white': k, 'black': 0}], the values of [color] that
    [image_grid] documents. Any other value is a [KeyError], which is
    outside this type. *)
Inductive color : Set := white | black.

(** The loop [for j in range(w)] of [image_grid]: the row so far and the
    index [p] of the next image. *)
Fixpoint grid_row (images : list Netpbm) (v_border : Np.ndarray)
  (w : nat) (p : nat) (row : Np.ndarray) : Py.result (Np.ndarray * nat) :=
  match w with
  | O => Py.Ok (row, p)
  | S w' =>
      image <- Py.index images p ;;
      row <- Np.hstack row (M image) ;;
      row <- Np.hstack row v_border ;;
      grid_row images v_border w' (S p) row
  end.

(** The loop [for i in range(h)]. *)
Fixpoint grid_rows (images : list Netpbm) (h_border v_border : Np.ndarray)
  (w h : nat) (p : nat) (grid_layout : Np.ndarray) : Py.result Np.ndarray :=
  match h with
  | O => Py.Ok grid_layout
  | S h' =>
      '(row, p) <- grid_row images v_border w p v_border ;;
      grid_layout <- Np.vstack grid_layout row ;;
      grid_layout <- Np.vstack grid_layout h_border ;;
      grid_rows images h_border v_border w h' p grid_layout
  end.

(** [image_grid]; the last step is [grid_layout.astype(int)], which
    leaves integers as they are. *)
Definition image_grid (images : list Netpbm) (w h b : Z) (c : color)
  : Py.result Netpbm :=
  first <- Py.index images 0 ;;
  '(n, m) <- (match Np.shape (M first) with
              | [n; m] => Py.Ok (n, m)
              | _ => Py.Raise Py.ValueError
              end) ;;
  let k := k first in
  let c := match c with white => k | black => 0 end in
  h_ones <- Np.ones [b; w * m + (w + 1) * b] ;;
  let h_border := Np.scale c h_ones in
  v_ones <- Np.ones [n; b] ;;
  let v_border := Np.scale c v_ones in
  grid_layout <-
    grid_rows images h_border v_border (Z.to_nat w) (Z.to_nat h) 0
      h_border ;;
  init (P first) k grid_layout.

(** [border] *)
Definition border (image : Netpbm) (b : Z) (c : color) : Py.result Netpbm :=
  image_grid [image] 1 1 b c.
End netpbm.

(** ** dmtools/ascii.py *)

Module ascii_art.

Definition chars : Py.str := Py.lit "  -~:;=!*#$@".




(** The branch [type == "txt"] of [write]: the text written to the file,
    for the array [np.array] builds from the nested list [M] that
    [netpbm_to_ascii] made. The line logged afterwards is [log_msg]. *)
Definition write_txt (M : list (list N)) : Py.str :=
  Py.join [Py.nl]
    (map (fun line => Py.join [Py.space] (map (fun c => [c]) line)) M)
  ++ [Py.nl].

End ascii_art.

(** ** dmtools/log.py *)

Module log.

(** [round(size / 1000)]: the quotient rounded to the nearest integer, a
    tie going to the even one. [size / 1000] is a [float], which is exact
    enough for this below [2^53]. *)
Definition round_thousandth (size : Z) : Z :=
  let q := size / 1000 in
  let r := size mod 1000 in
  if r <? 500 then q
  else if 500 <? r then q + 1
  else if Z.even q then q else q + 1.

(** The loop [while size >= 1000]. A turn at least halves [size], so
    [fuel] above its binary size is enough. *)
Fixpoint reduce (fuel : nat) (size i : Z) : Z * Z :=
  match fuel with
  | O => (size, i)
  | S f =>
      if 1000 <=? size then reduce f (round_thousandth size) (i + 1)
      else (size, i)
  end.

Definition units : list Py.str :=
  [Py.lit "B"; Py.lit "KB"; Py.lit "MB"; Py.lit "GB"; Py.lit "TB"].

(** [log_msg(name, time, size)]; [time] stands for the text of
    ['%.3f' % time]. *)
Definition log_msg (name time : Py.str) (size : Z) : Py.result Py.str :=
  let '(size', i) := reduce (S (Z.to_nat (Z.log2 size))) size 0 in
  unit <- Py.getitem units i ;;
  Py.Ok (name ++ Py.lit " | " ++ time ++ Py.lit "s | "
         ++ Py.str_of_int size' ++ unit).

End log.

(** ** Vocabulary of the statements *)




(** The grayscale raster [[[0, 85], [170, 255]]] with maximum 255. *)
Definition gray_2x2 : netpbm.Netpbm :=
  netpbm.mkNetpbm 2 2 2 255 (Np.array2 [[0; 85]; [170; 255]]).


(** The value of a run of decimal digits read after the value [a]. *)
Definition digits_value (a : Z) (ds : Py.str) : Z :=
  fold_left (fun acc c => 10 * acc + Py.digit_value c) ds a.

(** The characters of the tokens [to_netpbm] writes: digits, ['-'], ['P']. *)
Definition word_char (c : N) : Prop :=
  Py.isdigit c = true \/ c = 45%N \/ c = 80%N.

Definition word (s : Py.str) : Prop := s <> [] /\ Forall word_char s.

(** The number of samples per pixel both parsers reshape to. *)
Definition channels (P : Z) : Z := if P =? 3 then 3 else 1.

(** What [_parse_ascii_netpbm] has read when it comes to reshaping: the
    magic digit, width, height, maximum and the flat list of samples. *)
Definition ascii_header (f : list Py.str)
  : Py.result (Z * Z * Z * Z * list Z) :=
  let vals := netpbm.tokens f in
  v0 <- Py.index vals 0 ;;
  c <- Py.index v0 1 ;;
  P <- Py.int [c] ;;
  ints <- Py.mapM Py.int (tl vals) ;;
  '(w, h, k, vals) <- netpbm.unpack P ints ;;
  Py.Ok (P, w, h, k, vals).

(** The same for [_parse_binary_netpbm]; the samples are the bytes after
    the header lines. *)
Definition binary_header (file : list byte)
  : Py.result (Z * Z * Z * Z * list Z) :=
  let '(line, rest) := Py.readline file in
  s <- Py.decode line ;;
  c <- Py.index s 1 ;;
  P <- Py.int [c] ;;
  P <- Py.int_truediv P 2 ;;
  '(w, rest) <- netpbm.read_int_line rest ;;
  '(h, rest) <- netpbm.read_int_line rest ;;
  '(k, rest) <-
    (if P =? 1 then Py.Ok (1, rest) else netpbm.read_int_line rest) ;;
  Py.Ok (P, w, h, k, map (fun b => Z.of_N (Byte.to_N b)) rest).

(** The header [read_netpbm] reads, by the parser it chooses. *)
Definition header (file : list byte) : Py.result (Z * Z * Z * Z * list Z) :=
  magic_number <- Py.decode (firstn 2 file) ;;
  c <- Py.index magic_number 1 ;;
  n <- Py.int [c] ;;
  if n <=? 3 then
    f <- Py.text_lines file ;;
    ascii_header f
  else binary_header file.

(** The common end of both parsers. *)
Definition finish (hdr : Z * Z * Z * Z * list Z) : Py.result netpbm.Netpbm :=
  let '(P, w, h, k, samples) := hdr in
  M <- Np.reshape (Np.array samples) (netpbm.raster_shape P h w) ;;
  netpbm.init P k M.





(** Files of the examples. *)
Definition p4_1x1 : list byte :=
  Py.encode (Py.lit "P4" ++ [Py.nl] ++ Py.lit "1 1" ++ [Py.nl]) ++ [x80].


Definition p2_2x2 : list byte :=
  Py.encode (Py.lit "P2" ++ [Py.nl] ++ Py.lit "2 2" ++ [Py.nl]
             ++ Py.lit "255" ++ [Py.nl] ++ Py.lit "0 85 170 255"
             ++ [Py.nl]).

Definition p5_1x1 : list byte :=
  Py.encode (Py.lit "P5" ++ [Py.nl] ++ Py.lit "1" ++ [Py.nl]
             ++ Py.lit "1" ++ [Py.nl] ++ Py.lit "255" ++ [Py.nl])
  ++ [x80].


Definition commented_p2 : list byte :=
  Py.encode (Py.lit "# c" ++ [Py.nl] ++ Py.lit "P2" ++ [Py.nl]
             ++ Py.lit "1 1" ++ [Py.nl] ++ Py.lit "255" ++ [Py.nl]
             ++ Py.lit "7" ++ [Py.nl]).

Definition p4_lines_1x1 : list byte :=
  Py.encode (Py.lit "P4" ++ [Py.nl] ++ Py.lit "1" ++ [Py.nl]
             ++ Py.lit "1" ++ [Py.nl])
  ++ [x80].

(** The 1x1 bitmap [[[1]]] with maximum 1. *)
Definition bitmap_1x1 : netpbm.Netpbm :=
  netpbm.mkNetpbm 1 1 1 1 (Np.array2 [[1]]).




(** One row of samples as [to_netpbm] writes it. *)
Definition line (row : list Z) : Py.str :=
  Py.join [Py.space] (map Py.str_of_int row).


(** *** Vocabulary of the further properties *)


(** The header of a raw file as [_parse_binary_netpbm] reads it: the
    magic number, width, height and maximum, each on a line of its own. *)
Definition raw_header (d w h k : Z) : Py.str :=
  80%N :: Z.to_N (48 + d) :: Py.nl :: Py.str_of_int w ++ Py.nl
  :: Py.str_of_int h ++ Py.nl :: Py.str_of_int k ++ [Py.nl].

(** A byte as the unsigned 8-bit sample [np.fromfile] makes of it. *)
Definition sample_of_byte (b : byte) : Z := Z.of_N (Byte.to_N b).


(** One row of glyphs as [write] writes it: the glyphs with a blank
    between neighbours. *)
Definition spaced (row : list N) : Py.str :=
  Py.join [Py.space] (map (fun c => [c]) row).

(** The least size for which [log_msg] runs out of units. *)
Definition petabyte : Z := 999499499499500.

(** A 2-dimensional array of [n] rows and [m] columns with a buffer of
    that size. *)
Definition matrix (n m : Z) (a : Np.ndarray) : Prop :=
  Np.shape a = [n; m] /\ 0 <= n /\ 0 <= m
  /\ length (Np.data a) = (Z.to_nat n * Z.to_nat m)%nat.

(** The sample [image_grid] fills borders with. *)
Definition border_value (first : netpbm.Netpbm) (c : netpbm.color) : Z :=
  match c with
  | netpbm.white => netpbm.k first
  | netpbm.black => 0
  end.

(** * Facts about the Python built-ins *)

Section PyFacts.

Import Py.

Lemma int_digits_value ds : forall a p,
  Forall (fun c => isdigit c = true) ds -> ds <> [] \/ p = true ->
  int_digits a p ds = Some (digits_value a ds).
Proof.
  induction ds as [|c t IH]; intros a p Hd Hne.
  - destruct Hne as [Hne| ->]; [congruence|reflexivity].
  - inversion Hd as [|? ? Hc Ht]; subst. simpl. rewrite Hc.
    apply IH; [exact Ht|right; reflexivity].
Qed.

Lemma last_digit n :
  0 <= n ->
  isdigit (Z.to_N (48 + n mod 10)) = true
  /\ digit_value (Z.to_N (48 + n mod 10)) = n mod 10.
Proof.
  intros Hn.
  assert (Hm : 0 <= n mod 10 < 10) by (apply Z.mod_pos_bound; lia).
  unfold isdigit, digit_value. split.
  - apply andb_true_intro. split; apply N.leb_le; lia.
  - lia.
Qed.

Lemma digits_of_spec f : forall n acc,
  0 <= n < 2 ^ Z.of_nat (S f) ->
  exists ds, digits_of (S f) n acc = ds ++ acc /\ ds <> []
             /\ Forall (fun c => isdigit c = true) ds
             /\ digits_value 0 ds = n.
Proof.
  induction f as [|f IH]; intros n acc Hn;
    destruct (last_digit n (proj1 Hn)) as [Hd Hv].
  - exists [Z.to_N (48 + n mod 10)].
    change (2 ^ Z.of_nat 1) with 2 in Hn.
    cbn [digits_of]. destruct (Z.ltb_spec n 10); [|lia].
    repeat split; [discriminate|repeat constructor; exact Hd|].
    unfold digits_value. cbn [fold_left]. rewrite Hv, Z.mod_small; lia.
  - remember (S f) as f' eqn:Hf'. cbn [digits_of].
    destruct (Z.ltb_spec n 10) as [Hlt|Hge].
    + exists [Z.to_N (48 + n mod 10)].
      repeat split; [discriminate|repeat constructor; exact Hd|].
      unfold digits_value. cbn [fold_left]. rewrite Hv, Z.mod_small; lia.
    + subst f'.
      destruct (IH (n / 10) (Z.to_N (48 + n mod 10) :: acc))
        as [ds [Hds [Hne [Hall Hval]]]].
      { rewrite (Nat2Z.inj_succ (S f)), Z.pow_succ_r in Hn by lia.
        pose proof (Z.mul_div_le n 10 ltac:(lia)).
        split; [apply Z.div_pos; lia|]. lia. }
      exists (ds ++ [Z.to_N (48 + n mod 10)]). repeat split.
      * rewrite Hds, <- app_assoc. reflexivity.
      * destruct ds; discriminate.
      * apply Forall_app. split; [exact Hall|]. repeat constructor; exact Hd.
      * unfold digits_value in *. rewrite fold_left_app. cbn [fold_left].
        rewrite Hval, Hv. pose proof (Z.div_mod n 10 ltac:(lia)). lia.
Qed.

Lemma digits_of_nat n :
  0 <= n ->
  exists ds, digits_of (S (Z.to_nat (Z.log2 n))) n [] = ds /\ ds <> []
             /\ Forall (fun c => isdigit c = true) ds
             /\ digits_value 0 ds = n.
Proof.
  intros Hn.
  destruct (digits_of_spec (Z.to_nat (Z.log2 n)) n []) as [ds [H1 H2]].
  - split; [exact Hn|].
    rewrite Nat2Z.inj_succ, Z2Nat.id by apply Z.log2_nonneg.
    destruct (Z.eq_dec n 0) as [->|Hn0]; [reflexivity|].
    apply Z.log2_spec. lia.
  - exists ds. rewrite app_nil_r in H1. split; [exact H1|exact H2].
Qed.
End PyFacts.

(** ** Words, white space and [int] *)

Section Words.
Import Py.

Ltac cmp_cases :=
  repeat (match goal with
          | |- context [(?a <=? ?b)%N] => destruct (N.leb_spec a b)
          | |- context [(?a =? ?b)%N] => destruct (N.eqb_spec a b)
          | |- context [(?a <? ?b)%N] => destruct (N.ltb_spec a b)
          end; try lia).

Lemma word_char_facts c :
  word_char c ->
  isspace c = false /\ c <> hash /\ c <> cr /\ c <> nl /\ (c < 128)%N.
Proof.
  unfold word_char, isdigit, isspace, hash, cr, nl.
  intros [H|[->| ->]]; [|repeat split; (reflexivity || discriminate)..].
  apply andb_prop in H. destruct H as [H1 H2].
  apply N.leb_le in H1, H2.
  repeat split; try lia.
  cmp_cases; reflexivity.
Qed.

Lemma word_nonspace s :
  Forall word_char s -> Forall (fun c => isspace c = false) s.
Proof.
  apply Forall_impl. intros c Hc. apply word_char_facts, Hc.
Qed.

Lemma lstrip_nonspace s :
  Forall (fun c => isspace c = false) s -> lstrip s = s.
Proof. destruct 1 as [|c t Hc _]; simpl; [|rewrite Hc]; reflexivity. Qed.

Lemma strip_nonspace s :
  Forall (fun c => isspace c = false) s -> strip s = s.
Proof.
  intros H. unfold strip. rewrite (lstrip_nonspace s H).
  rewrite lstrip_nonspace by (apply Forall_rev, H). apply rev_involutive.
Qed.

Lemma digit_word_char c : isdigit c = true -> word_char c.
Proof. intros H. left. exact H. Qed.

Lemma str_of_int_word n : word (str_of_int n).
Proof.
  unfold str_of_int, word. destruct (Z.ltb_spec n 0) as [Hn|Hn].
  - destruct (digits_of_nat (- n) ltac:(lia)) as [ds [-> [_ [Hd _]]]].
    split; [discriminate|]. constructor; [right; left; reflexivity|].
    eapply Forall_impl; [|exact Hd]. exact digit_word_char.
  - destruct (digits_of_nat n Hn) as [ds [-> [Hne [Hd _]]]].
    split; [exact Hne|]. eapply Forall_impl; [|exact Hd]. exact digit_word_char.
Qed.

Lemma int_str_of_int n : int (str_of_int n) = Ok n.
Proof.
  unfold int. rewrite strip_nonspace
    by (apply word_nonspace, str_of_int_word).
  unfold str_of_int. destruct (Z.ltb_spec n 0) as [Hn|Hn].
  - destruct (digits_of_nat (- n) ltac:(lia)) as [ds [-> [Hne [Hd Hv]]]].
    simpl. rewrite int_digits_value by (auto). rewrite Hv.
    f_equal. lia.
  - destruct (digits_of_nat n Hn) as [ds [-> [Hne [Hd Hv]]]].
    destruct ds as [|c t]; [congruence|].
    assert (Hc : isdigit c = true) by (inversion Hd; assumption).
    unfold isdigit in Hc. apply andb_prop in Hc. destruct Hc as [H1 H2].
    apply N.leb_le in H1, H2.
    destruct (N.eqb_spec c 45); [lia|]. destruct (N.eqb_spec c 43); [lia|].
    rewrite int_digits_value by (auto; left; discriminate).
    rewrite Hv. reflexivity.
Qed.

(** A single digit character reads back as its value. *)
Lemma int_digit_char d :
  0 <= d <= 9 ->
  str_of_int d = [Z.to_N (48 + d)] /\ int [Z.to_N (48 + d)] = Ok d.
Proof.
  intros Hd.
  assert (H : d = 0 \/ d = 1 \/ d = 2 \/ d = 3 \/ d = 4 \/ d = 5
              \/ d = 6 \/ d = 7 \/ d = 8 \/ d = 9) by lia.
  repeat (destruct H as [->|H]; [split; reflexivity|]).
  subst. split; reflexivity.
Qed.




End Words.

(** ** Lines and files *)

Section Lines.
Import Py.

Lemma before_hash_id s :
  Forall (fun c => c <> hash) s -> before_hash s = s.
Proof.
  induction 1 as [|c t Hc _ IH]; simpl; [reflexivity|].
  destruct (N.eqb_spec c hash); [contradiction|]. rewrite IH. reflexivity.
Qed.

Lemma splitlines_nil s : splitlines s = [] -> s = [].
Proof.
  destruct s as [|c t]; [reflexivity|]. simpl.
  destruct (c =? nl)%N; [discriminate|].
  destruct (splitlines t); discriminate.
Qed.

Lemma concat_splitlines s : concat (splitlines s) = s.
Proof.
  induction s as [|c t IH]; [reflexivity|]. simpl.
  destruct (c =? nl)%N.
  - simpl. rewrite IH. reflexivity.
  - destruct (splitlines t) as [|l ls]; simpl in *.
    + rewrite <- IH. reflexivity.
    + rewrite <- IH. reflexivity.
Qed.

(** Splitting line by line is splitting the whole text. *)
Lemma split_splitlines_from s : forall tok,
  match splitlines s with
  | [] => flush tok
  | l :: ls => split_from tok l ++ concat (map split ls)
  end = split_from tok s.
Proof.
  induction s as [|c t IH]; intros tok; [reflexivity|].
  simpl. destruct (N.eqb_spec c nl) as [->|Hc].
  - change (isspace nl) with true. cbn [split_from].
    change (isspace nl) with true.
    cbn [split_from]. rewrite <- app_assoc. f_equal.
    specialize (IH []). destruct (splitlines t); exact IH.
  - destruct (splitlines t) as [|l ls] eqn:E.
    + apply splitlines_nil in E. subst t. simpl. rewrite app_nil_r. reflexivity.
    + cbn [split_from]. destruct (isspace c).
      * rewrite <- app_assoc. f_equal. exact (IH []).
      * exact (IH (c :: tok)).
Qed.

Lemma split_splitlines s : concat (map split (splitlines s)) = split s.
Proof.
  unfold split at 2. rewrite <- split_splitlines_from.
  destruct (splitlines s); reflexivity.
Qed.


Lemma byte_of_char_to_N c : (c < 128)%N -> Byte.to_N (byte_of_char c) = c.
Proof.
  intros Hc. unfold byte_of_char.
  destruct (Byte.of_N c) as [b|] eqn:E.
  - apply Byte.to_of_N, E.
  - apply Byte.of_N_None_iff in E. lia.
Qed.

Lemma decode_encode s :
  Forall (fun c => (c < 128)%N) s -> decode (encode s) = Ok s.
Proof.
  induction 1 as [|c t Hc _ IH]; [reflexivity|].
  cbn [encode map decode]. rewrite byte_of_char_to_N by exact Hc.
  destruct (N.ltb_spec c 128); [|lia].
  unfold encode in IH. rewrite IH. reflexivity.
Qed.
End Lines.

(** * Depth reduction and quantization *)

Section DepthReduction.

Import netpbm.

Lemma above_half_pos x m : 0 < m -> above_half x m = (m <? 2 * x).
Proof.
  intros Hm. unfold above_half.
  destruct (Z.eqb_spec m 0) as [->|_]; [lia|].
  destruct m as [|p|p]; try lia.
  remember (2 * x) as y eqn:Hy.
  unfold Qcompare, Qdiv, Qmult, Qinv, inject_Z; simpl.
  destruct (Z.compare_spec (x * 1 * 2) (Z.pos p));
    destruct (Z.ltb_spec (Z.pos p) y); try reflexivity; lia.
Qed.










(** C2, at a failing input: on the raster [[[0, 85], [170, 255]]] with
    maximum 255 one call with eleven levels gives [[[0, 3], [7, 11]]], a
    second call divides by the same step again and gives only zeros. *)
Theorem set_max_color_value_twice :
  set_max_color_value gray_2x2 11
  = Py.Ok (with_M gray_2x2 (Np.array2 [[0; 3]; [7; 11]]))
  /\ (r1 <- set_max_color_value gray_2x2 11 ;; set_max_color_value r1 11)
     = Py.Ok (with_M gray_2x2 (Np.array2 [[0; 0]; [0; 0]])).
Proof. split; reflexivity. Qed.

(** With a positive maximum the branch for one level thresholds every
    sample at half the maximum and leaves the magic number alone. *)
Lemma set_max_color_value_threshold r :
  0 < k r ->
  exists r',
    set_max_color_value r 1 = Py.Ok r'
    /\ P r' = P r
    /\ Np.data (M r')
       = map (fun x => if k r <? 2 * x then 1 else 0) (Np.data (M r)).
Proof.
  intros Hk. eexists. split; [reflexivity|]. split; [reflexivity|].
  simpl. apply map_ext. intros x. rewrite above_half_pos by exact Hk.
  reflexivity.
Qed.

(** C6, at a failing input: reducing the grayscale raster
    [[[0, 85], [170, 255]]] to one level thresholds the samples to
    [[[0, 0], [1, 1]]], but the object keeps the magic number 2 of a
    grayscale image. *)
Theorem set_max_color_value_1_keeps_P :
  set_max_color_value gray_2x2 1
  = Py.Ok (mkNetpbm 2 2 2 255 (Np.array2 [[0; 0]; [1; 1]])).
Proof. reflexivity. Qed.

End DepthReduction.

(** * The ASCII-art palette *)

Section Palette.

Import netpbm ascii_art.


Lemma Forall_firstn {A} (Q : A -> Prop) m l :
  Forall Q l -> Forall Q (firstn m l).
Proof.
  intros H. apply Forall_forall. intros x Hx.
  rewrite Forall_forall in H. apply H.
  rewrite <- (firstn_skipn m l). apply in_or_app. left. exact Hx.
Qed.

Lemma Forall_skipn {A} (Q : A -> Prop) m l :
  Forall Q l -> Forall Q (skipn m l).
Proof.
  intros H. apply Forall_forall. intros x Hx.
  rewrite Forall_forall in H. apply H.
  rewrite <- (firstn_skipn m l). apply in_or_app. right. exact Hx.
Qed.

Lemma Forall_chunk {A} (Q : A -> Prop) n m (l : list A) :
  Forall Q l -> Forall (Forall Q) (Np.chunk n m l).
Proof.
  revert l. induction n as [|n IH]; intros l H; simpl; constructor.
  - apply Forall_firstn, H.
  - apply IH, Forall_skipn, H.
Qed.






End Palette.

(** * Decoding *)

Section Decode.

Import Py netpbm.

Lemma _parse_ascii_netpbm_header f :
  _parse_ascii_netpbm f = (hdr <- ascii_header f ;; finish hdr).
Proof.
  unfold _parse_ascii_netpbm, ascii_header.
  destruct (index (tokens f) 0) as [v0|]; [|reflexivity]. simpl.
  destruct (index v0 1) as [c|]; [|reflexivity]. simpl.
  destruct (int [c]) as [P|]; [|reflexivity]. simpl.
  destruct (mapM int (tl (tokens f))) as [ints|]; [|reflexivity]. simpl.
  destruct (unpack P ints) as [[[[w h] k] vals]|]; reflexivity.
Qed.

Lemma _parse_binary_netpbm_header file :
  _parse_binary_netpbm file = (hdr <- binary_header file ;; finish hdr).
Proof.
  unfold _parse_binary_netpbm, binary_header.
  destruct (readline file) as [line rest].
  destruct (decode line) as [s|]; [|reflexivity]. simpl.
  destruct (index s 1) as [c|]; [|reflexivity]. simpl.
  destruct (int [c]) as [P|]; [|reflexivity]. simpl.
  unfold int_truediv. simpl. set (P' := Z.quot P 2).
  destruct (read_int_line rest) as [[w r1]|]; [|reflexivity]. simpl.
  destruct (read_int_line r1) as [[h r2]|]; [|reflexivity]. simpl.
  destruct (if P' =? 1 then Ok (1, r2) else read_int_line r2)
    as [[k r3]|]; reflexivity.
Qed.

Lemma read_netpbm_header file :
  read_netpbm file = (hdr <- header file ;; finish hdr).
Proof.
  unfold read_netpbm, header.
  destruct (decode (firstn 2 file)) as [m|]; [|reflexivity]. simpl.
  destruct (index m 1) as [c|]; [|reflexivity]. simpl.
  destruct (int [c]) as [n|]; [|reflexivity]. simpl.
  destruct (n <=? 3).
  - destruct (text_lines file) as [f|]; [|reflexivity]. simpl.
    apply _parse_ascii_netpbm_header.
  - apply _parse_binary_netpbm_header.
Qed.

Lemma reshape_raster a P h w :
  0 <= h -> 0 <= w ->
  Np.reshape a (raster_shape P h w)
  = if h * w * channels P =? Np.size a
    then Ok (Np.mk (raster_shape P h w) (Np.data a))
    else Raise ValueError.
Proof.
  intros Hh Hw.
  unfold Np.reshape, raster_shape, channels, Np.unknowns, Np.known.
  destruct (P =? 3); simpl;
    destruct (Z.ltb_spec h 0); try lia;
    destruct (Z.ltb_spec w 0); try lia; simpl.
  - replace (h * (w * 3)) with (h * w * 3) by lia. reflexivity.
  - replace (h * (w * 1)) with (h * w * 1) by lia. reflexivity.
Qed.

Lemma finish_spec P w h k samples :
  0 <= w -> 0 <= h ->
  finish (P, w, h, k, samples)
  = if h * w * channels P =? Z.of_nat (length samples)
    then Ok (mkNetpbm P h w k (Np.mk (raster_shape P h w) samples))
    else Raise ValueError.
Proof.
  intros Hw Hh. unfold finish. rewrite reshape_raster by assumption.
  unfold Np.size. simpl.
  destruct (h * w * channels P =? Z.of_nat (length samples)); [|reflexivity].
  simpl. unfold init, raster_shape. simpl. destruct (P =? 3); reflexivity.
Qed.

(** Too many sample tokens make the plain parser raise. *)
Lemma _parse_ascii_netpbm_surplus f P w h k vals :
  ascii_header f = Ok (P, w, h, k, vals) -> 0 <= w -> 0 <= h ->
  w * h * channels P < Z.of_nat (length vals) ->
  _parse_ascii_netpbm f = Raise ValueError.
Proof.
  intros Hhdr Hw Hh Hn. rewrite _parse_ascii_netpbm_header, Hhdr. cbn [bind].
  rewrite finish_spec by assumption.
  destruct (Z.eqb_spec (h * w * channels P) (Z.of_nat (length vals)));
    [lia|reflexivity].
Qed.

(** Too many body bytes make the raw parser raise. *)
Lemma _parse_binary_netpbm_surplus file P w h k samples :
  binary_header file = Ok (P, w, h, k, samples) -> 0 <= w -> 0 <= h ->
  w * h * channels P < Z.of_nat (length samples) ->
  _parse_binary_netpbm file = Raise ValueError.
Proof.
  intros Hhdr Hw Hh Hn. rewrite _parse_binary_netpbm_header, Hhdr. cbn [bind].
  rewrite finish_spec by assumption.
  destruct (Z.eqb_spec (h * w * channels P) (Z.of_nat (length samples)));
    [lia|reflexivity].
Qed.



End Decode.

(** * Failures of decoding *)

Section DecodeErrors.

Import Py netpbm.

Lemma int_nondigit c : isdigit c = false -> int [c] = Raise ValueError.
Proof.
  intros Hc. unfold int, strip. cbn [lstrip].
  destruct (isspace c) eqn:Es; cbn [rev app lstrip].
  - reflexivity.
  - rewrite Es. cbn [rev app].
    destruct (c =? 45)%N; [reflexivity|].
    destruct (c =? 43)%N; [reflexivity|].
    cbn [int_digits]. rewrite Hc, andb_false_r. reflexivity.
Qed.

Lemma raises_bind {A B} (c : result A) (f : A -> result B) :
  raises c -> raises (bind c f).
Proof. intros [e ->]. exists e. reflexivity. Qed.





(** C4, amended: decoding the file ["P4\n1 1\n"] followed by the byte
    [0x80] raises [ValueError]: the raw parser reads the width from a line
    of its own, and ["1 1"] is not an integer. *)
Theorem read_netpbm_p4_1x1 : read_netpbm p4_1x1 = Raise ValueError.
Proof. reflexivity. Qed.

(** C4, as stated, fails: decoding that file does not give the bitmap
    [[[1]]]. *)
Lemma read_netpbm_p4_1x1_counterexample :
  read_netpbm p4_1x1 <> Ok bitmap_1x1.
Proof. vm_compute. discriminate. Qed.

(** The magic number 4 of the raw bitmap format becomes [int(4 / 2)], the
    magic number of a grayscale image, so that a line with the maximum is
    expected where the samples begin. *)
Lemma read_netpbm_p4_lines_1x1 :
  read_netpbm p4_lines_1x1 = Raise UnicodeDecodeError.
Proof. reflexivity. Qed.

(** The example of the spec: ["P2\n2 2\n255\n0 85 170 255\n"] decodes to
    [[[0, 85], [170, 255]]] with maximum 255. *)
Lemma read_netpbm_p2_2x2 : read_netpbm p2_2x2 = Ok gray_2x2.
Proof. reflexivity. Qed.

(** With one header field per line and the magic number of the raw
    grayscale format, the byte [0x80] is the sample 128. *)
Lemma read_netpbm_p5_1x1 :
  read_netpbm p5_1x1 = Ok (mkNetpbm 2 1 1 255 (Np.array2 [[128]])).
Proof. reflexivity. Qed.

End DecodeErrors.

(** * Comments in the plain formats *)

Section Comments.

Import Py netpbm.







Lemma _parse_ascii_netpbm_tokens f f' :
  tokens f = tokens f' -> _parse_ascii_netpbm f = _parse_ascii_netpbm f'.
Proof. unfold _parse_ascii_netpbm. intros ->. reflexivity. Qed.



(** [read_netpbm] looks for the magic digit in the second byte of the
    file before any comment is cut off: a comment line in front of the
    magic number makes it raise. *)
Lemma read_netpbm_leading_comment :
  read_netpbm commented_p2 = Raise ValueError.
Proof. reflexivity. Qed.

End Comments.

(** * Writing a raster and reading it back *)

Section RoundTrip.

Import Py netpbm.


Lemma concat_chunk {A} n m : forall l : list A,
  length l = (n * m)%nat -> concat (Np.chunk n m l) = l.
Proof.
  induction n as [|n IH]; intros l Hl; simpl in *.
  - destruct l; [reflexivity|discriminate].
  - rewrite IH; [apply firstn_skipn|]. rewrite length_skipn. lia.
Qed.


Lemma Forall_join (Q : N -> Prop) sep parts :
  Forall Q sep -> Forall (Forall Q) parts -> Forall Q (join sep parts).
Proof.
  intros Hsep. induction 1 as [|p t Hp Ht IH]; [constructor|].
  destruct t as [|p' t']; [exact Hp|].
  change (join sep (p :: p' :: t')) with (p ++ sep ++ join sep (p' :: t')).
  repeat (apply Forall_app; split); assumption.
Qed.









Lemma tokens_splitlines t :
  Forall (fun c => c <> hash) t -> tokens (splitlines t) = split t.
Proof.
  intros Ht. unfold tokens. rewrite <- split_splitlines. f_equal.
  apply map_ext_in. intros l Hl. rewrite before_hash_id; [reflexivity|].
  rewrite <- (concat_splitlines t) in Ht.
  rewrite Forall_concat in Ht. rewrite Forall_forall in Ht. apply Ht, Hl.
Qed.










End RoundTrip.

(** * Further properties: decoded rasters *)

Section DecodedRasters.

Import Py netpbm.

Lemma channels_pos P : 0 < channels P.
Proof. unfold channels. destruct (P =? 3); lia. Qed.

(** What a successful [reshape] to the shape of a raster gives: the same
    buffer, non-negative dimensions and a size that fits, also when one
    dimension was left to be inferred. *)
Lemma reshape_raster_shape a P h w M :
  Np.reshape a (raster_shape P h w) = Ok M ->
  exists h' w',
    0 <= h' /\ 0 <= w' /\ Np.shape M = raster_shape P h' w'
    /\ Np.data M = Np.data a /\ h' * w' * channels P = Np.size a.
Proof.
  assert (Hn : 0 <= Np.size a) by (unfold Np.size; lia).
  unfold Np.reshape, raster_shape, channels, Np.unknowns, Np.known.
  destruct (P =? 3); cbn [filter fold_right length];
    destruct (Z.ltb_spec h 0); destruct (Z.ltb_spec w 0);
    cbn [length Z.ltb Z.compare map]; try discriminate.
  all: repeat match goal with
         | |- context [if ?c then _ else _] => destruct c eqn:?
         end; try discriminate; intros [= <-]; cbn [Np.shape Np.data].
  all: repeat match goal with
         | H : (_ || _) = false |- _ => apply orb_false_elim in H; destruct H
         | H : negb _ = false |- _ => apply negb_false_iff in H
         | H : (_ =? _) = true |- _ => apply Z.eqb_eq in H
         | H : (_ =? _) = false |- _ => apply Z.eqb_neq in H
         | H : (_ <? _) = true |- _ => apply Z.ltb_lt in H
         | H : (_ <? _) = false |- _ => apply Z.ltb_ge in H
         end.
  all: try (exists h, w; repeat split; try reflexivity; lia).
  all: rewrite ?Z.mul_1_r in *.
  all: match goal with
       | H : ?n mod ?p = 0, Hp : ?p <> 0 |- _ =>
           pose proof (proj2 (Z.div_exact n p Hp) H);
           assert (0 <= n / p) by (apply Z.div_pos; lia)
       end.
  all: do 2 eexists; split; [|split; [|split; [reflexivity|]]];
       [lia|lia|split; [reflexivity|nia]].
Qed.

Lemma finish_well_shaped P0 w0 h0 k0 samples r :
  finish (P0, w0, h0, k0, samples) = Ok r ->
  P r = P0 /\ k r = k0 /\ Np.data (M r) = samples
  /\ 0 <= h r /\ 0 <= w r
  /\ Np.shape (M r) = raster_shape P0 (h r) (w r)
  /\ Np.size (M r) = h r * w r * channels P0.
Proof.
  unfold finish.
  destruct (Np.reshape (Np.array samples) (raster_shape P0 h0 w0))
    as [A|] eqn:E; [|discriminate].
  apply reshape_raster_shape in E.
  destruct E as [h' [w' [Hh [Hw [Hs [Hd Hn]]]]]].
  cbn [bind]. unfold init. rewrite Hs. unfold raster_shape in *.
  destruct (P0 =? 3) eqn:E3; intros [= <-]; cbn [P k h w M];
    unfold Np.size in *; rewrite Hd in *; cbn [Np.data Np.array] in *;
    repeat split; (assumption || reflexivity || lia).
Qed.

Lemma unpack_bitmap P ints w h k vals :
  unpack P ints = Ok (w, h, k, vals) -> P = 1 -> k = 1.
Proof.
  unfold unpack. intros H ->. cbn [Z.eqb Pos.eqb] in H.
  destruct ints as [|? [|? ?]]; try discriminate. congruence.
Qed.

Lemma ascii_header_bitmap f P0 w0 h0 k0 samples :
  ascii_header f = Ok (P0, w0, h0, k0, samples) -> P0 = 1 -> k0 = 1.
Proof.
  unfold ascii_header.
  destruct (index (tokens f) 0) as [v0|]; [|discriminate]. cbn [bind].
  destruct (index v0 1) as [c|]; [|discriminate]. cbn [bind].
  destruct (int [c]) as [d|]; [|discriminate]. cbn [bind].
  destruct (mapM int (tl (tokens f))) as [ints|]; [|discriminate].
  cbn [bind].
  destruct (unpack d ints) as [[[[w1 h1] k1] vals]|] eqn:E; [|discriminate].
  cbn [bind]. intros [= <- <- <- <- <-]. eapply unpack_bitmap, E.
Qed.

Lemma binary_header_bitmap file P0 w0 h0 k0 samples :
  binary_header file = Ok (P0, w0, h0, k0, samples) -> P0 = 1 -> k0 = 1.
Proof.
  unfold binary_header.
  destruct (readline file) as [l rest].
  destruct (decode l) as [s|]; [|discriminate]. cbn [bind].
  destruct (index s 1) as [c|]; [|discriminate]. cbn [bind].
  destruct (int [c]) as [d|]; [|discriminate]. cbn [bind].
  unfold int_truediv. cbn [Z.eqb bind].
  destruct (read_int_line rest) as [[w1 r1]|]; [|discriminate]. cbn [bind].
  destruct (read_int_line r1) as [[h1 r2]|]; [|discriminate]. cbn [bind].
  destruct (Z.quot d 2 =? 1) eqn:E.
  - cbn [bind]. intros [= <- <- <- <- <-]. reflexivity.
  - destruct (read_int_line r2) as [[k1 r3]|]; [|discriminate]. cbn [bind].
    intros [= <- <- <- <- <-] H1. rewrite H1 in E. discriminate.
Qed.

Lemma header_bitmap file P0 w0 h0 k0 samples :
  header file = Ok (P0, w0, h0, k0, samples) -> P0 = 1 -> k0 = 1.
Proof.
  unfold header.
  destruct (decode (firstn 2 file)) as [m|]; [|discriminate]. cbn [bind].
  destruct (index m 1) as [c|]; [|discriminate]. cbn [bind].
  destruct (int [c]) as [d|]; [|discriminate]. cbn [bind].
  destruct (d <=? 3).
  - destruct (text_lines file) as [f|]; [|discriminate]. cbn [bind].
    apply ascii_header_bitmap.
  - apply binary_header_bitmap.
Qed.

Lemma read_netpbm_well_shaped_lemma file r :
  read_netpbm file = Ok r ->
  0 <= h r /\ 0 <= w r
  /\ Np.shape (M r) = raster_shape (P r) (h r) (w r)
  /\ Np.size (M r) = h r * w r * channels (P r)
  /\ (P r = 1 -> k r = 1).
Proof.
  rewrite read_netpbm_header.
  destruct (header file) as [[[[[P0 w0] h0] k0] samples]|] eqn:Hh;
    [|discriminate].
  cbn [bind]. intros Hf.
  apply finish_well_shaped in Hf.
  destruct Hf as [HP [Hk [_ [H1 [H2 [H3 H4]]]]]].
  rewrite HP, Hk. repeat split; try assumption.
  eapply header_bitmap, Hh.
Qed.

(** X1: whatever [read_netpbm] returns has non-negative height and width,
    an array of the shape height x width (x 3 for magic number 3) whose
    buffer has exactly that many samples, and maximum 1 when its magic
    number is 1. *)
Theorem read_netpbm_well_shaped file r :
  read_netpbm file = Ok r ->
  0 <= h r /\ 0 <= w r
  /\ Np.shape (M r) = raster_shape (P r) (h r) (w r)
  /\ Np.size (M r) = h r * w r * channels (P r)
  /\ (P r = 1 -> k r = 1).
Proof. apply read_netpbm_well_shaped_lemma. Qed.

Lemma read_netpbm_well_shaped_witness :
  0 <= h gray_2x2 /\ 0 <= w gray_2x2
  /\ Np.shape (M gray_2x2)
     = raster_shape (P gray_2x2) (h gray_2x2) (w gray_2x2)
  /\ Np.size (M gray_2x2)
     = h gray_2x2 * w gray_2x2 * channels (P gray_2x2)
  /\ (P gray_2x2 = 1 -> k gray_2x2 = 1).
Proof.
  apply (read_netpbm_well_shaped p2_2x2 gray_2x2). reflexivity.
Defined.









End DecodedRasters.

(** * Further properties: the raw formats *)

Section RawFormats.

Import Py netpbm.

Lemma int_single c n :
  int [c] = Ok n -> isdigit c = true /\ n = digit_value c.
Proof.
  destruct (isdigit c) eqn:Hc.
  - intros H. split; [reflexivity|].
    unfold isdigit in Hc. apply andb_prop in Hc. destruct Hc as [H1 H2].
    apply N.leb_le in H1, H2.
    assert (Hs : isspace c = false).
    { apply (word_char_facts c). left. unfold isdigit.
      apply andb_true_intro. split; apply N.leb_le; assumption. }
    revert H. unfold int, strip. cbn [lstrip]. rewrite Hs.
    cbn [rev app lstrip]. rewrite Hs. cbn [rev app].
    destruct (N.eqb_spec c 45); [lia|]. destruct (N.eqb_spec c 43); [lia|].
    cbn [int_digits]. unfold isdigit.
    destruct (N.leb_spec 48 c); [|lia]. destruct (N.leb_spec c 57); [|lia].
    cbn [andb]. intros [= <-]. lia.
  - intros H. rewrite int_nondigit in H by exact Hc. discriminate.
Qed.

Lemma byte_of_char_nl c :
  (c < 128)%N -> c <> nl -> Byte.eqb (byte_of_char c) x0a = false.
Proof.
  intros Hc Hn. destruct (Byte.eqb (byte_of_char c) x0a) eqn:E; [|reflexivity].
  apply Byte.byte_dec_bl in E.
  apply (f_equal Byte.to_N) in E. rewrite byte_of_char_to_N in E by exact Hc.
  contradiction.
Qed.

(** A line of the header: words and then the line end. *)
Lemma readline_encode s rest :
  Forall (fun c => (c < 128)%N /\ c <> nl) s ->
  readline (encode (s ++ [nl]) ++ rest) = (encode (s ++ [nl]), rest).
Proof.
  induction 1 as [|c t [Hc Hn] _ IH]; [reflexivity|].
  cbn [app encode map readline]. rewrite byte_of_char_nl by assumption.
  unfold encode in IH. rewrite IH. reflexivity.
Qed.

Lemma word_line s :
  Forall word_char s -> Forall (fun c => (c < 128)%N /\ c <> nl) s.
Proof.
  apply Forall_impl. intros c Hc. apply word_char_facts in Hc. tauto.
Qed.

Lemma word_ascii s : Forall word_char s -> Forall (fun c => (c < 128)%N) s.
Proof.
  apply Forall_impl. intros c Hc. apply word_char_facts in Hc. tauto.
Qed.

Lemma drop_last_app {A} (l : list A) x : drop_last (l ++ [x]) = l.
Proof. apply removelast_last. Qed.

Lemma read_int_line_encode n rest :
  read_int_line (encode (str_of_int n ++ [nl]) ++ rest) = Ok (n, rest).
Proof.
  unfold read_int_line.
  rewrite readline_encode by (apply word_line, str_of_int_word).
  rewrite decode_encode.
  - cbn [bind]. rewrite drop_last_app, int_str_of_int. reflexivity.
  - apply Forall_app. split; [apply word_ascii, str_of_int_word|].
    repeat constructor.
Qed.

Lemma encode_app s t : encode (s ++ t) = encode s ++ encode t.
Proof. apply map_app. Qed.

Lemma binary_header_raw d w0 h0 k0 body :
  4 <= d <= 9 ->
  binary_header (encode (raw_header d w0 h0 k0) ++ body)
  = Ok (Z.quot d 2, w0, h0, k0, map sample_of_byte body).
Proof.
  intros Hd. unfold binary_header, raw_header.
  change (80%N :: Z.to_N (48 + d) :: nl :: ?x)
    with (([80%N; Z.to_N (48 + d)] ++ [nl]) ++ x).
  rewrite encode_app, <- app_assoc.
  rewrite readline_encode
    by (repeat constructor; try discriminate; unfold nl; lia).
  rewrite decode_encode by (repeat constructor; lia).
  cbn [bind app index nth_error].
  rewrite (proj2 (int_digit_char d ltac:(lia))). cbn [bind].
  unfold int_truediv. cbn [Z.eqb bind].
  change (str_of_int w0 ++ nl :: ?x) with (str_of_int w0 ++ [nl] ++ x).
  rewrite app_assoc, encode_app, <- app_assoc, read_int_line_encode.
  cbn [bind].
  change (str_of_int h0 ++ nl :: ?x) with (str_of_int h0 ++ [nl] ++ x).
  rewrite app_assoc, encode_app, <- app_assoc, read_int_line_encode.
  cbn [bind].
  destruct (Z.eqb_spec (Z.quot d 2) 1) as [E|_].
  - assert (d = 4 \/ d = 5 \/ d = 6 \/ d = 7 \/ d = 8 \/ d = 9) as H by lia.
    repeat (destruct H as [->|H]; [discriminate|]). subst. discriminate.
  - rewrite read_int_line_encode. reflexivity.
Qed.

Lemma read_netpbm_raw_path d t body :
  4 <= d <= 9 ->
  read_netpbm (encode (80%N :: Z.to_N (48 + d) :: t) ++ body)
  = _parse_binary_netpbm (encode (80%N :: Z.to_N (48 + d) :: t) ++ body).
Proof.
  intros Hd. unfold read_netpbm.
  change (firstn 2 (encode (80%N :: Z.to_N (48 + d) :: t) ++ body))
    with (encode [80%N; Z.to_N (48 + d)]).
  rewrite decode_encode by (repeat constructor; lia).
  cbn [bind index nth_error].
  rewrite (proj2 (int_digit_char d ltac:(lia))). cbn [bind].
  destruct (Z.leb_spec d 3); [lia|reflexivity].
Qed.

(** X5: a file made of a raw header with magic digit [d] from 4 to 9, one
    field per line, and exactly width * height * channels body bytes is
    read as the raster with magic number [int(d / 2)] whose samples are the
    bytes as they are, whether or not they exceed the maximum. *)
Theorem read_netpbm_raw d w0 h0 k0 body :
  4 <= d <= 9 -> 0 <= w0 -> 0 <= h0 ->
  Z.of_nat (length body) = w0 * h0 * channels (Z.quot d 2) ->
  read_netpbm (encode (raw_header d w0 h0 k0) ++ body)
  = Ok (mkNetpbm (Z.quot d 2) h0 w0 k0
          (Np.mk (raster_shape (Z.quot d 2) h0 w0)
             (map sample_of_byte body))).
Proof.
  intros Hd Hw Hh Hlen.
  unfold raw_header at 1. rewrite read_netpbm_raw_path by exact Hd.
  fold (raw_header d w0 h0 k0).
  rewrite _parse_binary_netpbm_header, binary_header_raw by exact Hd.
  cbn [bind]. rewrite finish_spec by assumption.
  rewrite length_map.
  destruct (Z.eqb_spec (h0 * w0 * channels (Z.quot d 2))
              (Z.of_nat (length body))); [reflexivity|lia].
Qed.

Lemma read_netpbm_raw_witness :
  read_netpbm (encode (raw_header 6 1 1 255) ++ [x0a; xff; x00])
  = Ok (mkNetpbm 3 1 1 255 (Np.mk [1; 1; 3] [10; 255; 0])).
Proof.
  apply (read_netpbm_raw 6 1 1 255 [x0a; xff; x00]); (lia || reflexivity).
Defined.

Lemma binary_header_magic b0 b1 t P0 w0 h0 k0 samples :
  binary_header (b0 :: b1 :: t) = Ok (P0, w0, h0, k0, samples) ->
  (Byte.to_N b0 <? 128)%N = true -> isdigit (Byte.to_N b1) = true ->
  P0 = Z.quot (digit_value (Byte.to_N b1)) 2.
Proof.
  intros H H0 H1. revert H. unfold binary_header. cbn [readline].
  destruct (Byte.eqb b0 x0a) eqn:E0.
  { apply Byte.byte_dec_bl in E0. subst b0. cbn. discriminate. }
  destruct (Byte.eqb b1 x0a) eqn:E1.
  { apply Byte.byte_dec_bl in E1. subst b1. discriminate. }
  destruct (readline t) as [l rest]. cbn [decode]. rewrite H0.
  assert (H1' : (Byte.to_N b1 <? 128)%N = true).
  { unfold isdigit in H1. apply andb_prop in H1. destruct H1 as [_ H1].
    apply N.leb_le in H1. apply N.ltb_lt. lia. }
  rewrite H1'.
  destruct (decode l) as [s|]; [|discriminate]. cbn [bind index nth_error].
  destruct (int [Byte.to_N b1]) as [n|] eqn:En; [|discriminate].
  apply int_single in En. destruct En as [_ ->]. cbn [bind].
  unfold int_truediv. cbn [Z.eqb bind].
  destruct (read_int_line rest) as [[w1 r1]|]; [|discriminate]. cbn [bind].
  destruct (read_int_line r1) as [[h1 r2]|]; [|discriminate]. cbn [bind].
  destruct (if _ =? 1 then _ else _) as [[k1 r3]|]; [|discriminate].
  cbn [bind]. intros [= <- _ _ _ _]. reflexivity.
Qed.

(** X6: when [read_netpbm] returns for a file whose second byte is a digit
    from 4 on, the magic number of the raster is half that digit, rounded
    down: 2, 3 or 4, and never 1. A raw file is never read as a bitmap. *)
Theorem read_netpbm_raw_magic file b r :
  read_netpbm file = Ok r -> nth_error file 1 = Some b ->
  (52 <= Byte.to_N b)%N ->
  P r = Z.quot (digit_value (Byte.to_N b)) 2 /\ 2 <= P r <= 4.
Proof.
  intros Hread Hb Hge.
  assert (HP : P r = Z.quot (digit_value (Byte.to_N b)) 2
               /\ isdigit (Byte.to_N b) = true).
  { revert Hread. unfold read_netpbm.
    destruct file as [|b0 [|b1 t]]; try discriminate.
    cbn [nth_error] in Hb. injection Hb as ->.
    cbn [firstn decode].
    destruct (Byte.to_N b0 <? 128)%N eqn:E0.
    - destruct (Byte.to_N b <? 128)%N eqn:E1.
      + cbn [bind index nth_error].
        destruct (int [Byte.to_N b]) as [n|] eqn:En; [|discriminate].
        apply int_single in En. destruct En as [Hdig ->]. cbn [bind].
        unfold digit_value at 1.
        destruct (Z.leb_spec (Z.of_N (Byte.to_N b) - 48) 3); [lia|].
        rewrite _parse_binary_netpbm_header.
        destruct (binary_header (b0 :: b :: t))
          as [[[[[P0 w0] h0] k0] samples]|] eqn:Hh; [|discriminate].
        cbn [bind]. intros Hf. apply finish_well_shaped in Hf.
        destruct Hf as [-> _]. split; [|exact Hdig].
        eapply binary_header_magic; eassumption.
      + repeat match goal with
               | |- context [if ?c then _ else _] => destruct c
               end; discriminate.
    - repeat match goal with
             | |- context [if ?c then _ else _] => destruct c
             end; discriminate. }
  destruct HP as [HP Hdig]. split; [exact HP|]. rewrite HP.
  unfold isdigit in Hdig. apply andb_prop in Hdig. destruct Hdig as [_ H9].
  apply N.leb_le in H9. unfold digit_value.
  assert (Hv : 4 <= Z.of_N (Byte.to_N b) - 48 <= 9) by lia.
  revert Hv. generalize (Z.of_N (Byte.to_N b) - 48). intros v Hv.
  assert (v = 4 \/ v = 5 \/ v = 6 \/ v = 7 \/ v = 8 \/ v = 9) as H by lia.
  repeat (destruct H as [->|H]; [cbn; lia|]). subst. cbn. lia.
Qed.

Lemma read_netpbm_raw_magic_witness :
  P (mkNetpbm 2 1 1 255 (Np.array2 [[128]]))
  = Z.quot (digit_value (Byte.to_N x35)) 2
  /\ 2 <= P (mkNetpbm 2 1 1 255 (Np.array2 [[128]])) <= 4.
Proof.
  apply (read_netpbm_raw_magic p5_1x1 x35); [reflexivity|reflexivity|].
  vm_compute. discriminate.
Defined.
End RawFormats.

(** * Further properties: the plain formats *)

Section MorePlain.

Import Py netpbm.

(** X4: for texts without comments the plain parser depends only on the
    sequence of tokens: two texts that split into the same tokens, however
    they are laid out in lines, give the same result. *)
Theorem parse_ascii_layout t t' :
  Forall (fun c => c <> hash) t -> Forall (fun c => c <> hash) t' ->
  split t = split t' ->
  _parse_ascii_netpbm (splitlines t) = _parse_ascii_netpbm (splitlines t').
Proof.
  intros Ht Ht' Heq. apply _parse_ascii_netpbm_tokens.
  rewrite !tokens_splitlines by assumption. exact Heq.
Qed.

Lemma parse_ascii_layout_witness :
  _parse_ascii_netpbm
    (splitlines (lit "P2 1 2 255" ++ [nl] ++ lit "7 8" ++ [nl]))
  = _parse_ascii_netpbm
      (splitlines (lit "P2" ++ [nl] ++ lit "1" ++ [cr; nl] ++ lit "2"
                   ++ [nl; nl] ++ lit "255 7" ++ [9%N] ++ lit "8")).
Proof.
  apply parse_ascii_layout.
  - repeat constructor; discriminate.
  - repeat constructor; discriminate.
  - reflexivity.
Defined.


End MorePlain.

(** * Further properties: depth reduction *)

Section MoreDepth.

Import Py netpbm.











End MoreDepth.

(** * Further properties: the ASCII art *)

Section MoreAscii.

Import Py netpbm ascii_art.



Lemma length_chunk {A} n m (l : list A) : length (Np.chunk n m l) = n.
Proof.
  revert l. induction n as [|n IH]; intros l; [reflexivity|].
  cbn [Np.chunk length]. rewrite IH. reflexivity.
Qed.

Lemma chunk_row_length {A} n m : forall l : list A,
  length l = (n * m)%nat ->
  Forall (fun row => length row = m) (Np.chunk n m l).
Proof.
  induction n as [|n IH]; intros l Hl; [constructor|].
  cbn [Np.chunk]. constructor.
  - rewrite length_firstn. lia.
  - apply IH. rewrite length_skipn. lia.
Qed.





End MoreAscii.

(** * Further properties: the text file of the ASCII art *)

Section WriteTxt.

Import Py ascii_art.

Lemma splitlines_line l rest :
  Forall (fun c => c <> nl) l ->
  splitlines (l ++ nl :: rest) = (l ++ [nl]) :: splitlines rest.
Proof.
  induction 1 as [|c t Hc _ IH].
  - reflexivity.
  - cbn [app splitlines]. destruct (N.eqb_spec c nl); [contradiction|].
    rewrite IH. reflexivity.
Qed.

Lemma splitlines_join ls :
  ls <> [] -> Forall (Forall (fun c => c <> nl)) ls ->
  splitlines (join [nl] ls ++ [nl]) = map (fun l => l ++ [nl]) ls.
Proof.
  intros Hne H. induction H as [|l t Hl Ht IH]; [congruence|].
  destruct t as [|l' t'].
  - cbn [join map]. rewrite splitlines_line by exact Hl. reflexivity.
  - change (join [nl] (l :: l' :: t'))
      with (l ++ [nl] ++ join [nl] (l' :: t')).
    rewrite <- !app_assoc. cbn [app].
    rewrite splitlines_line by exact Hl.
    rewrite IH by discriminate. reflexivity.
Qed.

Lemma spaced_even row : forall j,
  nth_error (spaced row) (2 * j) = nth_error row j.
Proof.
  induction row as [|c t IH]; intros j.
  - destruct j; reflexivity.
  - destruct t as [|c' t'].
    + destruct j as [|[|j]]; reflexivity.
    + change (spaced (c :: c' :: t')) with (c :: space :: spaced (c' :: t')).
      destruct j as [|j]; [reflexivity|].
      replace (2 * S j)%nat with (S (S (2 * j))) by lia.
      cbn [nth_error]. apply IH.
Qed.

Lemma spaced_odd row j c :
  nth_error (spaced row) (S (2 * j)) = Some c -> c = space.
Proof.
  revert j. induction row as [|x t IH]; intros j.
  - destruct j; discriminate.
  - destruct t as [|x' t'].
    + destruct j; discriminate.
    + change (spaced (x :: x' :: t')) with (x :: space :: spaced (x' :: t')).
      destruct j as [|j]; [cbn; congruence|].
      replace (2 * S j)%nat with (S (S (2 * j))) by lia.
      cbn [nth_error]. apply IH.
Qed.

Lemma length_spaced row :
  row <> [] -> length (spaced row) = (2 * length row - 1)%nat.
Proof.
  induction row as [|c t IH]; [congruence|]. intros _.
  destruct t as [|c' t']; [reflexivity|].
  change (spaced (c :: c' :: t')) with (c :: space :: spaced (c' :: t')).
  cbn [length] in *. rewrite IH by discriminate. lia.
Qed.

Lemma palette_not_nl c : In c chars -> c <> nl /\ c <> space \/ c = space.
Proof.
  intros H. cbn in H.
  repeat (destruct H as [<-|H];
          [(left; split; discriminate) || (right; reflexivity)|]).
  contradiction.
Qed.

Lemma spaced_no_nl row :
  Forall (fun c => In c chars) row -> Forall (fun c => c <> nl) (spaced row).
Proof.
  intros H. unfold spaced. apply Forall_join.
  - constructor; [discriminate|constructor].
  - apply Forall_map. eapply Forall_impl; [|exact H].
    intros c Hc. constructor; [|constructor].
    destruct (palette_not_nl c Hc) as [[H1 _]| ->]; [exact H1|discriminate].
Qed.

(** X12: the text [write] makes of a grid of palette glyphs has one line
    per row of the grid; the line of a row is twice as long as the row,
    carries glyph [j] of the row in column [2 * j] and, after it, a blank,
    or the line end after the last glyph. *)
Theorem write_txt_layout glyphs i j row c :
  Forall (Forall (fun c => In c chars)) glyphs ->
  nth_error glyphs i = Some row -> nth_error row j = Some c ->
  length (splitlines (write_txt glyphs)) = length glyphs
  /\ exists l,
       nth_error (splitlines (write_txt glyphs)) i = Some l
       /\ length l = (2 * length row)%nat
       /\ nth_error l (2 * j) = Some c
       /\ nth_error l (S (2 * j))
          = Some (if (S j =? length row)%nat then nl else space).
Proof.
  intros Hp Hi Hj.
  assert (Hne : glyphs <> [])
    by (destruct glyphs; [destruct i|]; discriminate).
  assert (Hrow : row <> []) by (destruct row; [destruct j|]; discriminate).
  assert (Hs : splitlines (write_txt glyphs)
               = map (fun row => spaced row ++ [nl]) glyphs).
  { unfold write_txt. fold spaced.
    rewrite splitlines_join.
    - rewrite map_map. reflexivity.
    - destruct glyphs; [congruence|discriminate].
    - apply Forall_map. eapply Forall_impl; [|exact Hp].
      intros r Hr. apply spaced_no_nl, Hr. }
  rewrite Hs. split; [apply length_map|].
  exists (spaced row ++ [nl]). split; [rewrite nth_error_map, Hi; reflexivity|].
  pose proof (length_spaced row Hrow) as Hl.
  assert (Hjl : (j < length row)%nat) by (apply nth_error_Some; congruence).
  split; [|split].
  - rewrite length_app, Hl. cbn [length]. lia.
  - rewrite nth_error_app1 by lia. rewrite spaced_even. exact Hj.
  - destruct (Nat.eqb_spec (S j) (length row)) as [E|E].
    + rewrite nth_error_app2 by lia.
      replace (S (2 * j) - length (spaced row))%nat with 0%nat by lia.
      reflexivity.
    + rewrite nth_error_app1 by lia.
      destruct (nth_error (spaced row) (S (2 * j))) as [x|] eqn:Ex.
      * apply spaced_odd in Ex. congruence.
      * apply nth_error_None in Ex. lia.
Qed.
Lemma write_txt_layout_witness :
  length (splitlines (write_txt [[32; 126]; [33; 64]]%N)) = 2%nat
  /\ exists l,
       nth_error (splitlines (write_txt [[32; 126]; [33; 64]]%N)) 1
       = Some l
       /\ length l = (2 * 2)%nat
       /\ nth_error l (2 * 1) = Some 64%N
       /\ nth_error l (S (2 * 1)) = Some nl.
Proof.
  apply (write_txt_layout [[32; 126]; [33; 64]]%N 1 1 [33; 64]%N 64%N);
    [|reflexivity|reflexivity].
  repeat constructor; cbn; tauto.
Defined.

End WriteTxt.



(** * Further properties: the log line *)

Section LogMsg.

Import Py log.

Lemma round_thousandth_ge A s :
  Z.even A = true ->
  (A <= round_thousandth s <-> 1000 * A - 500 <= s).
Proof.
  intros HA. unfold round_thousandth.
  pose proof (Z.div_mod s 1000 ltac:(lia)) as Hdm.
  pose proof (Z.mod_pos_bound s 1000 ltac:(lia)) as Hb.
  destruct (Z.ltb_spec (s mod 1000) 500); [lia|].
  destruct (Z.ltb_spec 500 (s mod 1000)); [lia|].
  destruct (Z.even (s / 1000)) eqn:Ev; [|lia].
  apply Z.even_spec in HA, Ev.
  destruct HA as [a Ha], Ev as [m Hm]. lia.
Qed.

Lemma round_thousandth_pos s : 500 < s -> 1 <= round_thousandth s.
Proof.
  intros Hs. unfold round_thousandth.
  pose proof (Z.div_mod s 1000 ltac:(lia)) as Hdm.
  pose proof (Z.mod_pos_bound s 1000 ltac:(lia)) as Hb.
  assert (0 <= s / 1000) by (apply Z.div_pos; lia).
  destruct (Z.ltb_spec (s mod 1000) 500); [lia|].
  destruct (Z.ltb_spec 500 (s mod 1000)); [lia|].
  destruct (Z.even (s / 1000)) eqn:Ev; [|lia].
  destruct (Z.eq_dec (s / 1000) 0) as [E|E]; [lia|lia].
Qed.

Lemma reduce_counts fuel : forall s i s' i',
  reduce fuel s i = (s', i') -> i <= i'.
Proof.
  induction fuel as [|f IH]; intros s i s' i'; cbn [reduce].
  - intros [= _ <-]. lia.
  - destruct (1000 <=? s).
    + intros H. apply IH in H. lia.
    + intros [= _ <-]. lia.
Qed.

Lemma fuel_five s :
  1000 <= s -> exists f, S (Z.to_nat (Z.log2 s)) = (5 + f)%nat.
Proof.
  intros Hs. pose proof (Z.log2_le_mono 16 s ltac:(lia)) as H.
  change (Z.log2 16) with 4 in H.
  exists (Z.to_nat (Z.log2 s) - 4)%nat. lia.
Qed.

Lemma getitem_units i :
  0 <= i <= 4 -> exists u, getitem units i = Ok u /\ In u units.
Proof.
  intros Hi.
  assert (i = 0 \/ i = 1 \/ i = 2 \/ i = 3 \/ i = 4) as H by lia.
  repeat (destruct H as [->|H];
          [eexists; split; [reflexivity|cbn; tauto]|]).
  subst. eexists; split; [reflexivity|cbn; tauto].
Qed.

Lemma getitem_units_out i : 5 <= i -> getitem units i = Raise IndexError.
Proof.
  intros Hi. unfold getitem. change (Z.of_nat (length units)) with 5.
  destruct (Z.leb_spec 0 i); [|lia]. destruct (Z.ltb_spec i 5); [lia|].
  cbn [andb]. destruct (Z.leb_spec (- (5)) i); [|lia].
  destruct (Z.ltb_spec i 0); [lia|]. reflexivity.
Qed.

(** What the loop returns for a size below a petabyte: a number below
    1000 and a count of at most four turns. *)
Lemma reduce_below s :
  s < petabyte ->
  exists n i,
    reduce (S (Z.to_nat (Z.log2 s))) s 0 = (n, i)
    /\ 0 <= i <= 4 /\ n < 1000
    /\ (1000 <= s -> 1 <= n) /\ (s < 1000 -> n = s /\ i = 0).
Proof.
  intros Hs. unfold petabyte in Hs.
  destruct (Z.ltb_spec s 1000) as [Hlt|Hge].
  { exists s, 0. cbn [reduce]. destruct (Z.leb_spec 1000 s); [lia|].
    repeat split; lia. }
  destruct (fuel_five s Hge) as [f ->].
  pose proof (round_thousandth_ge 999499499500 s eq_refl) as H4.
  set (s1 := round_thousandth s) in *.
  pose proof (round_thousandth_ge 999499500 s1 eq_refl) as H3.
  set (s2 := round_thousandth s1) in *.
  pose proof (round_thousandth_ge 999500 s2 eq_refl) as H2.
  set (s3 := round_thousandth s2) in *.
  pose proof (round_thousandth_ge 1000 s3 eq_refl) as H1.
  set (s4 := round_thousandth s3) in *.
  pose proof (round_thousandth_pos s) as P1. fold s1 in P1.
  pose proof (round_thousandth_pos s1) as P2. fold s2 in P2.
  pose proof (round_thousandth_pos s2) as P3. fold s3 in P3.
  pose proof (round_thousandth_pos s3) as P4. fold s4 in P4.
  cbn [Nat.add reduce]. destruct (Z.leb_spec 1000 s); [|lia]. fold s1.
  destruct (Z.leb_spec 1000 s1).
  2: { exists s1, 1. repeat split; lia. }
  fold s2. destruct (Z.leb_spec 1000 s2).
  2: { exists s2, 2. repeat split; lia. }
  fold s3. destruct (Z.leb_spec 1000 s3).
  2: { exists s3, 3. repeat split; lia. }
  fold s4. destruct (Z.leb_spec 1000 s4); [lia|].
  exists s4, 4. repeat split; lia.
Qed.

(** X13: for a size below 999499499499500 [log_msg] returns the name, the
    time and the size as a number below 1000 followed by one of the five
    units; the number is at least 1 when the size was at least 1000, and is
    the size itself, in bytes, below 1000. From that size on (sizes below
    [2^53]) the loop runs five times and [units[i]] raises [IndexError]. *)
Theorem log_msg_size name time size :
  (size < petabyte ->
   exists n u,
     log_msg name time size
     = Ok (name ++ lit " | " ++ time ++ lit "s | " ++ str_of_int n ++ u)
     /\ In u units /\ n < 1000
     /\ (1000 <= size -> 1 <= n)
     /\ (size < 1000 -> n = size /\ u = lit "B"))
  /\ (petabyte <= size < 2 ^ 53 ->
      log_msg name time size = Raise IndexError).
Proof.
  split.
  - intros Hs.
    destruct (reduce_below size Hs) as [n [i [Hr [Hi [Hn [H1 H0]]]]]].
    destruct (getitem_units i Hi) as [u [Hu Hin]].
    exists n, u. unfold log_msg. rewrite Hr, Hu. cbn [bind].
    split; [reflexivity|]. split; [exact Hin|]. split; [exact Hn|].
    split; [exact H1|]. intros Hlt. destruct (H0 Hlt) as [-> ->].
    split; [reflexivity|]. cbn in Hu. injection Hu as <-. reflexivity.
  - intros [Hs _]. unfold petabyte in Hs. unfold log_msg.
    destruct (fuel_five size ltac:(lia)) as [f ->].
    pose proof (round_thousandth_ge 999499499500 size eq_refl) as H4.
    set (s1 := round_thousandth size) in *.
    pose proof (round_thousandth_ge 999499500 s1 eq_refl) as H3.
    set (s2 := round_thousandth s1) in *.
    pose proof (round_thousandth_ge 999500 s2 eq_refl) as H2.
    set (s3 := round_thousandth s2) in *.
    pose proof (round_thousandth_ge 1000 s3 eq_refl) as H1.
    set (s4 := round_thousandth s3) in *.
    cbn [Nat.add reduce]. destruct (Z.leb_spec 1000 size); [|lia]. fold s1.
    destruct (Z.leb_spec 1000 s1); [|lia]. fold s2.
    destruct (Z.leb_spec 1000 s2); [|lia]. fold s3.
    destruct (Z.leb_spec 1000 s3); [|lia]. fold s4.
    destruct (Z.leb_spec 1000 s4); [|lia].
    destruct (reduce f (round_thousandth s4) (0 + 1 + 1 + 1 + 1 + 1))
      as [n i] eqn:E.
    apply reduce_counts in E. rewrite getitem_units_out by lia. reflexivity.
Qed.

Lemma log_msg_size_witness :
  (exists n u,
     log_msg (lit "a.txt") (lit "0.001") 999500
     = Ok (lit "a.txt" ++ lit " | " ++ lit "0.001" ++ lit "s | "
           ++ str_of_int n ++ u)
     /\ In u units /\ n < 1000
     /\ (1000 <= 999500 -> 1 <= n)
     /\ (999500 < 1000 -> n = 999500 /\ u = lit "B"))
  /\ log_msg (lit "a.txt") (lit "0.001") petabyte = Raise IndexError.
Proof.
  split.
  - apply (proj1 (log_msg_size (lit "a.txt") (lit "0.001") 999500)).
    reflexivity.
  - apply (proj2 (log_msg_size (lit "a.txt") (lit "0.001") petabyte)).
    unfold petabyte. lia.
Defined.
End LogMsg.

(** * Further properties: image grids and borders *)

Section Stacking.

Import Py Np Np.

Lemma length_zip_app {A} (xs ys : list (list A)) :
  length xs = length ys -> length (zip_app xs ys) = length xs.
Proof.
  revert ys. induction xs as [|x xs IH]; intros [|y ys] H;
    try discriminate; [reflexivity|].
  cbn [zip_app length]. rewrite IH; [reflexivity|]. cbn in H. lia.
Qed.

Lemma zip_app_rows {A} a b (xs ys : list (list A)) :
  length xs = length ys ->
  Forall (fun r => length r = a) xs -> Forall (fun r => length r = b) ys ->
  Forall (fun r => length r = (a + b)%nat) (zip_app xs ys).
Proof.
  revert ys. induction xs as [|x xs IH]; intros [|y ys] H Hx Hy;
    try discriminate; [constructor|].
  inversion Hx; inversion Hy; subst. cbn [zip_app]. constructor.
  - rewrite length_app. reflexivity.
  - apply IH; [cbn in H; lia|assumption|assumption].
Qed.

Lemma zip_app_Forall {A} (Q : A -> Prop) (xs ys : list (list A)) :
  Forall (Forall Q) xs -> Forall (Forall Q) ys ->
  Forall (Forall Q) (zip_app xs ys).
Proof.
  intros Hx. revert ys. induction Hx as [|x xs Hx _ IH]; intros ys Hy.
  - constructor.
  - destruct Hy as [|y ys Hy Hys]; [constructor|].
    cbn [zip_app]. constructor; [apply Forall_app; split; assumption|].
    apply IH, Hys.
Qed.

Lemma length_concat_rows {A} m (ls : list (list A)) :
  Forall (fun r => length r = m) ls ->
  length (concat ls) = (length ls * m)%nat.
Proof.
  induction 1 as [|r ls Hr _ IH]; [reflexivity|].
  cbn [concat length]. rewrite length_app, IH, Hr. lia.
Qed.




Lemma chunk_concat {A} m (ls : list (list A)) :
  Forall (fun r => length r = m) ls ->
  chunk (length ls) m (concat ls) = ls.
Proof.
  induction 1 as [|r ls Hr _ IH]; [reflexivity|].
  cbn [length chunk concat].
  rewrite firstn_app, firstn_all2 by lia.
  rewrite Hr, Nat.sub_diag, firstn_O, app_nil_r.
  rewrite skipn_app, skipn_all2 by lia.
  rewrite Hr, Nat.sub_diag, skipn_O. cbn [app]. rewrite IH. reflexivity.
Qed.

Lemma scale_ones c n m :
  0 <= n -> 0 <= m ->
  exists o,
    ones [n; m] = Ok o
    /\ scale c o = mk [n; m] (repeat c (Z.to_nat n * Z.to_nat m)).
Proof.
  intros Hn Hm. unfold ones. cbn [forallb].
  destruct (Z.leb_spec 0 n); [|lia]. destruct (Z.leb_spec 0 m); [|lia].
  cbn [andb]. eexists. split; [reflexivity|].
  unfold scale, map_elems, product. cbn [shape data fold_right].
  rewrite Z.mul_1_r, Z2Nat.inj_mul by assumption. f_equal.
  induction (Z.to_nat n * Z.to_nat m)%nat as [|j IH]; [reflexivity|].
  cbn [repeat map]. rewrite IH. f_equal. lia.
Qed.

Lemma matrix_full c n m :
  0 <= n -> 0 <= m ->
  matrix n m (mk [n; m] (repeat c (Z.to_nat n * Z.to_nat m))).
Proof.
  intros Hn Hm. unfold matrix. cbn [shape data]. rewrite repeat_length.
  repeat split; (reflexivity || assumption).
Qed.

Lemma hstack_matrix a b n c1 c2 :
  matrix n c1 a -> matrix n c2 b ->
  hstack a b
  = Ok (mk [n; c1 + c2]
          (concat (zip_app (rows a) (rows b)))).
Proof.
  intros [Ha _] [Hb _]. unfold hstack, atleast_1d, rows. rewrite Ha, Hb.
  unfold concatenate1. rewrite Ha, Hb.
  rewrite Z.eqb_refl. unfold same_dims.
  destruct (list_eq_dec Z.eq_dec [] []); [|congruence].
  cbn [andb product fold_right]. rewrite !Z.mul_1_r. reflexivity.
Qed.

Lemma rows_matrix a n m :
  matrix n m a ->
  length (rows a) = Z.to_nat n
  /\ Forall (fun r => length r = Z.to_nat m) (rows a)
  /\ concat (rows a) = data a.
Proof.
  intros [Hs [Hn [Hm Hl]]]. unfold rows. rewrite Hs. split; [|split].
  - apply length_chunk.
  - apply chunk_row_length, Hl.
  - apply concat_chunk, Hl.
Qed.

Lemma hstack_matrix_ok a b n c1 c2 :
  matrix n c1 a -> matrix n c2 b ->
  exists r, hstack a b = Ok r /\ matrix n (c1 + c2) r
            /\ rows r = zip_app (rows a) (rows b).
Proof.
  intros Ha Hb. rewrite (hstack_matrix a b n c1 c2 Ha Hb).
  destruct (rows_matrix a n c1 Ha) as [La [Ra _]].
  destruct (rows_matrix b n c2 Hb) as [Lb [Rb _]].
  destruct Ha as [_ [Hn [H1 _]]], Hb as [_ [_ [H2 _]]].
  pose proof (zip_app_rows _ _ (rows a) (rows b) ltac:(lia) Ra Rb) as Hz.
  pose proof (length_zip_app (rows a) (rows b) ltac:(lia)) as Lz.
  rewrite <- Z2Nat.inj_add in Hz by assumption.
  eexists. split; [reflexivity|]. split.
  - unfold matrix. cbn [shape data].
    rewrite (length_concat_rows _ _ Hz), Lz, La.
    repeat split; (reflexivity || lia).
  - unfold rows at 1. cbn [shape data]. rewrite <- La, <- Lz.
    apply chunk_concat, Hz.
Qed.

Lemma vstack_matrix_ok a b r1 r2 c :
  matrix r1 c a -> matrix r2 c b ->
  exists r, vstack a b = Ok r /\ matrix (r1 + r2) c r
            /\ data r = data a ++ data b.
Proof.
  intros [Ha [H1 [Hc La]]] [Hb [H2 [_ Lb]]].
  unfold vstack, atleast_2d. rewrite Ha, Hb.
  unfold concatenate0. rewrite Ha, Hb.
  unfold same_dims. destruct (list_eq_dec Z.eq_dec [c] [c]); [|congruence].
  eexists. split; [reflexivity|]. split; [|reflexivity].
  unfold matrix. cbn [shape data]. rewrite length_app, La, Lb.
  rewrite Z2Nat.inj_add by assumption.
  repeat split; (reflexivity || lia).
Qed.
End Stacking.

Section Grid.
Import Py Np netpbm.

Variable Q : Z -> Prop.

Lemma rows_Forall a n m :
  matrix n m a -> Forall Q (data a) -> Forall (Forall Q) (rows a).
Proof.
  intros [Hs _] Hq. unfold rows. rewrite Hs. apply Forall_chunk, Hq.
Qed.

Lemma hstack_keeps a b n c1 c2 :
  matrix n c1 a -> matrix n c2 b ->
  Forall Q (data a) -> Forall Q (data b) ->
  exists r, hstack a b = Ok r /\ matrix n (c1 + c2) r /\ Forall Q (data r).
Proof.
  intros Ha Hb Qa Qb.
  destruct (hstack_matrix_ok a b n c1 c2 Ha Hb) as [r [Hr [Hm Hrows]]].
  exists r. split; [exact Hr|]. split; [exact Hm|].
  destruct (rows_matrix r n (c1 + c2) Hm) as [_ [_ <-]].
  rewrite Hrows. apply Forall_concat, zip_app_Forall.
  - eapply rows_Forall; eassumption.
  - eapply rows_Forall; eassumption.
Qed.


Variables (images : list Netpbm) (n m b : Z) (h_border v_border : ndarray).
Hypothesis Himages : Forall (fun image => matrix n m (M image)) images.
Hypothesis Qimages : Forall (fun image => Forall Q (data (M image))) images.
Hypothesis Hv : matrix n b v_border.
Hypothesis Qv : Forall Q (data v_border).

Lemma grid_row_ok w : forall p row c0,
  matrix n c0 row -> Forall Q (data row) ->
  (p + w <= length images)%nat ->
  exists row',
    grid_row images v_border w p row = Ok (row', (p + w)%nat)
    /\ matrix n (c0 + Z.of_nat w * (m + b)) row'
    /\ Forall Q (data row').
Proof.
  induction w as [|w IH]; intros p row c0 Hrow Qrow Hp.
  - exists row. cbn [grid_row]. rewrite Nat.add_0_r.
    replace (c0 + Z.of_nat 0 * (m + b)) with c0 by lia. auto.
  - cbn [grid_row]. unfold index.
    destruct (nth_error images p) as [image|] eqn:E.
    2: { apply nth_error_None in E. lia. }
    cbn [bind]. apply nth_error_In in E.
    rewrite Forall_forall in Himages, Qimages.
    destruct (hstack_keeps row (M image) n c0 m Hrow (Himages _ E) Qrow
                (Qimages _ E)) as [r1 [-> [H1 Q1]]].
    cbn [bind].
    destruct (hstack_keeps r1 v_border n (c0 + m) b H1 Hv Q1 Qv)
      as [r2 [-> [H2 Q2]]].
    cbn [bind].
    destruct (IH (S p) r2 (c0 + m + b) H2 Q2 ltac:(lia))
      as [row' [Hg [Hm' Q']]].
    exists row'. rewrite Hg. split; [f_equal; f_equal; lia|].
    split; [|exact Q'].
    replace (c0 + Z.of_nat (S w) * (m + b))
      with (c0 + m + b + Z.of_nat w * (m + b)) by lia.
    exact Hm'.
Qed.

Lemma grid_row_short w : forall p row c0,
  matrix n c0 row ->
  (p <= length images < p + w)%nat ->
  grid_row images v_border w p row = Raise IndexError.
Proof.
  induction w as [|w IH]; intros p row c0 Hrow Hp; [lia|].
  cbn [grid_row]. unfold index.
  destruct (nth_error images p) as [image|] eqn:E; [|reflexivity].
  cbn [bind].
  assert (Hlt : (p < length images)%nat)
    by (apply nth_error_Some; congruence).
  apply nth_error_In in E. rewrite Forall_forall in Himages.
  destruct (hstack_matrix_ok row (M image) n c0 m Hrow (Himages _ E))
    as [r1 [-> [H1 _]]].
  cbn [bind].
  destruct (hstack_matrix_ok r1 v_border n (c0 + m) b H1 Hv)
    as [r2 [-> [H2 _]]].
  cbn [bind]. apply (IH (S p) r2 (c0 + m + b) H2). lia.
Qed.

Variable w : nat.
Let W : Z := b + Z.of_nat w * (m + b).
Hypothesis Hh : matrix b W h_border.
Hypothesis Qh : Forall Q (data h_border).


Lemma grid_rows_short h : forall p grid r0,
  matrix r0 W grid ->
  (p <= length images < p + w * h)%nat ->
  grid_rows images h_border v_border w h p grid = Raise IndexError.
Proof.
  induction h as [|h IH]; intros p grid r0 Hg Hp; [lia|].
  cbn [grid_rows].
  destruct (Nat.le_gt_cases (p + w) (length images)) as [Hle|Hgt].
  - destruct (grid_row_ok w p v_border b Hv Qv Hle)
      as [row [-> [Hrow _]]].
    cbn [bind]. fold W in Hrow.
    destruct (vstack_matrix_ok grid row r0 n W Hg Hrow) as [g1 [-> [H1 _]]].
    cbn [bind].
    destruct (vstack_matrix_ok g1 h_border (r0 + n) b W H1 Hh)
      as [g2 [-> [H2 _]]].
    cbn [bind]. apply (IH (p + w)%nat g2 (r0 + n + b) H2). nia.
  - rewrite (grid_row_short w p v_border b Hv ltac:(lia)). reflexivity.
Qed.
End Grid.

Section ImageGrid.
Import Py Np netpbm.




(** X15: with fewer images than the [w * h] cells of the grid,
    [image_grid] raises [IndexError]. *)
Theorem image_grid_too_few images w0 h0 b c first n m :
  nth_error images 0 = Some first ->
  Forall (fun image => matrix n m (M image)) images ->
  0 <= w0 -> 0 <= h0 -> 0 <= b ->
  Z.of_nat (length images) < w0 * h0 ->
  image_grid images w0 h0 b c = Raise IndexError.
Proof.
  intros Hfirst Himages Hw Hh Hb Hlen.
  assert (Hin : In first images) by (eapply nth_error_In, Hfirst).
  pose proof (proj1 (Forall_forall _ _) Himages first Hin)
    as [Hs [Hn [Hm Hl]]].
  unfold image_grid, index. rewrite Hfirst. cbn [bind]. rewrite Hs.
  cbn [bind]. cbv zeta. fold (border_value first c).
  set (W := b + Z.of_nat (Z.to_nat w0) * (m + b)).
  replace (w0 * m + (w0 + 1) * b) with W by (unfold W; lia).
  assert (HW : 0 <= W) by (unfold W; nia).
  destruct (scale_ones (border_value first c) b W Hb HW) as [o1 [-> Ho1]].
  cbn [bind]. rewrite Ho1.
  destruct (scale_ones (border_value first c) n b Hn Hb) as [o2 [-> Ho2]].
  cbn [bind]. rewrite Ho2.
  rewrite (grid_rows_short (fun _ => True) images n m b
             (mk [b; W] (repeat (border_value first c)
                           (Z.to_nat b * Z.to_nat W)))
             (mk [n; b] (repeat (border_value first c)
                           (Z.to_nat n * Z.to_nat b)))
             Himages
             ltac:(apply Forall_forall; intros; apply Forall_forall; auto)
             (matrix_full _ n b Hn Hb)
             ltac:(apply Forall_forall; auto)
             (Z.to_nat w0)
             (matrix_full _ b W Hb HW)
             (Z.to_nat h0) 0%nat _ b
             (matrix_full _ b W Hb HW)).
  - reflexivity.
  - cbn [Nat.add]. nia.
Qed.
Lemma gray_2x2_matrix : matrix 2 2 (M gray_2x2).
Proof. unfold matrix. simpl. repeat split; (reflexivity || lia). Qed.


Lemma image_grid_too_few_witness :
  image_grid [gray_2x2; gray_2x2] 2 2 1 black = Raise IndexError.
Proof.
  apply (image_grid_too_few [gray_2x2; gray_2x2] 2 2 1 black gray_2x2 2 2).
  - reflexivity.
  - repeat (constructor; [exact gray_2x2_matrix|]). constructor.
  - lia.
  - lia.
  - lia.
  - simpl. lia.
Defined.

End ImageGrid.

Section Border.
Import Py Np netpbm.






(** X18: [image_grid] raises [IndexError] for an empty list of images,
    and [ValueError] when the array of the first image is not 2-dimensional
    (a color raster) or the border width is negative. *)
Theorem image_grid_rejects first rest w0 h0 b c :
  image_grid [] w0 h0 b c = Raise IndexError
  /\ ((forall n m, Np.shape (M first) <> [n; m]) ->
      image_grid (first :: rest) w0 h0 b c = Raise ValueError)
  /\ (forall n m, Np.shape (M first) = [n; m] -> b < 0 ->
      image_grid (first :: rest) w0 h0 b c = Raise ValueError).
Proof.
  split; [reflexivity|]. split.
  - intros Hs. unfold image_grid, index. cbn [nth_error bind].
    destruct (Np.shape (M first)) as [|n [|m [|x s]]]; try reflexivity.
    exfalso. apply (Hs n m). reflexivity.
  - intros n m Hs Hb. unfold image_grid, index. cbn [nth_error bind].
    rewrite Hs. cbn [bind]. cbv zeta. unfold ones. cbn [forallb].
    destruct (Z.leb_spec 0 b); [lia|]. reflexivity.
Qed.

Lemma image_grid_rejects_witness :
  border (mkNetpbm 3 1 1 255 (Np.mk [1; 1; 3] [1; 2; 3])) 1 white
  = Raise ValueError
  /\ border gray_2x2 (-1) white = Raise ValueError.
Proof.
  split.
  - apply (proj1 (proj2 (image_grid_rejects
                           (mkNetpbm 3 1 1 255 (Np.mk [1; 1; 3] [1; 2; 3]))
                           [] 1 1 1 white))).
    intros n m. discriminate.
  - apply (proj2 (proj2 (image_grid_rejects gray_2x2 [] 1 1 (-1) white))
             2 2); [reflexivity|lia].
Defined.
End Border.
